(** * Event notifier: the check pipeline of [main.py]

    A shallow embedding of [src/main.py] (a Flask application that fetches a
    page, looks for keywords in its text and mails an alert) together with
    the properties its specification states about it.

    Conventions of the embedding.
    - A Python [str] is a [string]; a character is an 8-bit code point
      (U+0000 to U+00FF).  [str.strip], [str.lower], [str.split],
      [str.splitlines], [str.join] and [in] are written out below with the
      behaviour CPython has on that range.
    - [os.environ], [request.form], [request.headers] and [request.args] are
      finite maps from strings to strings ([request.headers] keyed by the
      header name as the handler spells it).
    - The configuration dict and the JSON document of [config.json] are
      records whose fields are optional: [None] is an absent key.  A url is
      a string and keywords are a list of strings, as [save_config] writes
      them; [json.dump] followed by [json.load] is the identity on such
      documents.
    - The outside world (file, network, mail relay, clock) is a record that
      the functions thread through; everything the program observes of it is
      an explicit field.  Python exceptions are the [Raised] outcome.  The
      file is either missing ([FileNotFoundError]) or readable and writable;
      other failures of the file system are not part of the model.
    - [logger] calls are kept: they are events of the trace of the world.
    - The text of a mail, [msg.as_string()], is what the [email] package
      makes of the message: the world gives it, or the exception raised
      instead.  Lines 111-116 only store their arguments and do not raise on
      the strings of the model. *)

From Stdlib Require Import Ascii NArith Lia.
From stdpp Require Import base option list strings pretty gmap.

Local Open Scope list_scope.

(** ** Python's string methods *)

Module Py.

Definition code (c : ascii) : N := N_of_ascii c.

Definition between (lo hi n : N) : bool := (lo <=? n)%N && (n <=? hi)%N.

(** [str.isspace] on one character: TAB, LF, VT, FF, CR, the separators
    FS, GS, RS, US, the space, NEL (U+0085) and NBSP (U+00A0). *)
Definition isspace (c : ascii) : bool :=
  between 9 13 (code c) || between 28 32 (code c)
  || (code c =? 133)%N || (code c =? 160)%N.

(** The line boundaries of [str.splitlines]: LF, VT, FF, CR, FS, GS, RS and
    NEL.  (US is white space but not a line boundary.) *)
Definition islinebreak (c : ascii) : bool :=
  between 10 13 (code c) || between 28 30 (code c) || (code c =? 133)%N.

(** [str.lower] on one character: A..Z and the upper-case letters of
    U+00C0..U+00DE (all but the multiplication sign U+00D7) move up by 32.
    On this range lowering goes character by character; beyond it [str.lower]
    depends on the context (the final sigma), so no property below relies on
    [lower] going through a concatenation. *)
Definition lower_char (c : ascii) : ascii :=
  if between 65 90 (code c)
     || (between 192 222 (code c) && negb (code c =? 215)%N)
  then ascii_of_N (code c + 32)
  else c.

Fixpoint lower (s : string) : string :=
  match s with
  | EmptyString => EmptyString
  | String c s' => String (lower_char c) (lower s')
  end.

(** Truth value of a string: [bool(s)]. *)
Definition truthy (s : string) : bool :=
  match s with EmptyString => false | String _ _ => true end.

Fixpoint lstrip (s : string) : string :=
  match s with
  | EmptyString => EmptyString
  | String c s' => if isspace c then lstrip s' else s
  end.

Fixpoint rstrip (s : string) : string :=
  match s with
  | EmptyString => EmptyString
  | String c s' =>
      match rstrip s' with
      | EmptyString => if isspace c then EmptyString else String c EmptyString
      | r => String c r
      end
  end.

(** [s.strip()] *)
Definition strip (s : string) : string := rstrip (lstrip s).

Fixpoint startswith (p s : string) : bool :=
  match p, s with
  | EmptyString, _ => true
  | String a p', String b s' => bool_decide (a = b) && startswith p' s'
  | String _ _, EmptyString => false
  end.

(** [sub in s] *)
Fixpoint contains (sub s : string) : bool :=
  startswith sub s
  || match s with
     | EmptyString => false
     | String _ s' => contains sub s'
     end.

(** Put a character in front of the first piece of a split. *)
Definition cons_head (c : ascii) (l : list string) : list string :=
  match l with
  | [] => [String c EmptyString]
  | h :: t => String c h :: t
  end.

(** [s.split(sep)] for a non-empty separator: the pieces between the
    occurrences of [sep] found from left to right without overlap.  [skip]
    counts the characters of a separator just recognised that are still to
    be passed over. *)
Fixpoint split_from (sep : string) (skip : nat) (s : string) : list string :=
  match s with
  | EmptyString => [EmptyString]
  | String c s' =>
      match skip with
      | S k => split_from sep k s'
      | O =>
          if startswith sep s
          then EmptyString :: split_from sep (String.length sep - 1) s'
          else cons_head c (split_from sep 0 s')
      end
  end.

Definition split (sep s : string) : list string := split_from sep 0 s.

(** [s.splitlines()]: a boundary ends the current line, CR LF is a single
    boundary, and no empty line follows the last boundary. *)
Fixpoint splitlines (s : string) : list string :=
  match s with
  | EmptyString => []
  | String c s' =>
      if islinebreak c then
        match s' with
        | String d s'' =>
            if bool_decide (c = "013"%char) && bool_decide (d = "010"%char)
            then EmptyString :: splitlines s''
            else EmptyString :: splitlines s'
        | EmptyString => [EmptyString]
        end
      else cons_head c (splitlines s')
  end.

(** [sep.join(l)] *)
Fixpoint join (sep : string) (l : list string) : string :=
  match l with
  | [] => EmptyString
  | [x] => x
  | x :: l' => x +:+ sep +:+ join sep l'
  end.

End Py.

(** ** KeywordMatcher: [check_keywords] (main.py, lines 94-103) *)

(** One turn of the [for] loop: the body appends the stripped keyword to
    [found_keywords] when it is not empty and occurs in the lowered text. *)
Definition check_keywords_step (text_lower : string)
    (found_keywords : list string) (keyword : string) : list string :=
  if Py.truthy (Py.strip keyword)
     && Py.contains (Py.lower (Py.strip keyword)) text_lower
  then found_keywords ++ [Py.strip keyword]
  else found_keywords.

Definition check_keywords (text : string) (keywords : list string) : list string :=
  let found_keywords := [] in
  let text_lower := Py.lower text in
  fold_left (check_keywords_step text_lower) keywords found_keywords.

(** ** The outside world and the effects of the program *)

(** A Python call returns a value or raises; an exception is kept as its
    description, [str(e)], which is all the program ever looks at. *)
Inductive outcome (A : Type) : Type :=
  | Returned (a : A)
  | Raised (description : string).
Arguments Returned {A} a.
Arguments Raised {A} description.

(** A dict with the keys the program uses; [None] is an absent key.  It is
    the type of [config] and of the JSON document in [config.json]. *)
Record dict : Type := Dict {
  at_url : option string;
  at_keywords : option (list string);
  at_sender_email : option string;
  at_sender_password : option string;
  at_receiver_email : option string;
}.

(** The keys present in a dict. *)
Definition keys (d : dict) : list string :=
  (if at_url d is Some _ then ["url"] else [])
  ++ (if at_keywords d is Some _ then ["keywords"] else [])
  ++ (if at_sender_email d is Some _ then ["sender_email"] else [])
  ++ (if at_sender_password d is Some _ then ["sender_password"] else [])
  ++ (if at_receiver_email d is Some _ then ["receiver_email"] else []).

Inductive level : Type := INFO | WARNING | ERROR.

(** The multipart message built at lines 111-116. *)
Record message : Type := Message {
  msg_From : string;
  msg_To : string;
  msg_Subject : string;
  msg_body : string;
}.

(** The calls made on the SMTP connection at lines 119-125. *)
Inductive smtp_command : Type :=
  | SMTP (host : string) (port : N)
  | starttls
  | login (user password : string)
  | sendmail (from_addr to_addrs : string) (msg : string)
  | quit.

(** A call of one of the functions of the module, with its arguments. *)
Inductive invocation : Type :=
  | of_load_config
  | of_save_config (config : dict)
  | of_scrape_webpage (url : string)
  | of_check_keywords (text : string) (keywords : list string)
  | of_send_email
      (sender_email sender_password receiver_email subject body : string)
  | of_perform_check.

(** What an execution leaves behind, oldest first: the records handed to
    [logger], the commands issued to the mail relay and, as a ghost record
    that lets the properties speak of the stages reached, the calls of the
    module's functions. *)
Inductive event : Type :=
  | Log (lvl : level) (text : string)
  | Call (f : invocation)
  | Smtp (c : smtp_command).

Record world : Type := World {
  (** [os.environ] *)
  environ : gmap string string;
  (** the document in [CONFIG_FILE]; [None] when the file does not exist *)
  config_json : option dict;
  (** lines 69-82 for a url: the text [soup.get_text()] yields once the
      script and style elements are gone, or the exception raised on the way
      (connection, time-out, HTTP status, parser) *)
  get_text : string → outcome string;
  (** the answer of the relay to a command: it returns or raises *)
  relay : smtp_command → outcome unit;
  (** [msg.as_string()] (line 123): the text the [email] package makes of a
      message, or the exception it raises (a header value with an embedded
      header, for one) *)
  as_string : message → outcome string;
  (** [datetime.now().strftime('%Y-%m-%d %H:%M:%S')] *)
  now : string;
  trace : list event;
}.

Definition set_config_json (d : dict) (w : world) : world :=
  World (environ w) (Some d) (get_text w) (relay w) (as_string w) (now w)
        (trace w).

Definition emit (e : event) (w : world) : world :=
  World (environ w) (config_json w) (get_text w) (relay w) (as_string w) (now w)
        (trace w ++ [e]).

(** Computations: a state monad over [world] with exceptions. *)
Definition M (A : Type) : Type := world → outcome A * world.

Global Instance M_ret : MRet M := λ A a w, (Returned a, w).

Global Instance M_bind : MBind M := λ A B k m w,
  match m w with
  | (Returned a, w') => k a w'
  | (Raised e, w') => (Raised e, w')
  end.

Definition raise {A} (description : string) : M A := λ w, (Raised description, w).

(** [try: body  except Exception as e: handler(str(e))] *)
Definition try_except {A} (body : M A) (handler : string → M A) : M A := λ w,
  match body w with
  | (Returned a, w') => (Returned a, w')
  | (Raised e, w') => handler e w'
  end.

Definition log (lvl : level) (text : string) : M unit :=
  λ w, (Returned (), emit (Log lvl text) w).

Definition enter (f : invocation) : M unit :=
  λ w, (Returned (), emit (Call f) w).

(** [os.environ.get(name)] and [os.environ.get(name, default)] *)
Definition getenv (name : string) : M (option string) :=
  λ w, (Returned (environ w !! name), w).

Definition getenv_or (name fallback : string) : M string :=
  λ w, (Returned (default fallback (environ w !! name)), w).

(** [d[key]]: a [KeyError], whose description is the quoted key. *)
Definition getitem {A} (key : string) (field : option A) : M A :=
  match field with
  | Some v => mret v
  | None => raise ("'" +:+ key +:+ "'")
  end.

(** Truth value of a list, and Python's [a or b] on strings. *)
Definition truthy_list {A} (l : list A) : bool :=
  match l with [] => false | _ :: _ => true end.

Definition or_else (a b : string) : string := if Py.truthy a then a else b.

(** [[kw.strip() for kw in s.split(',') if kw.strip()]], the comprehension of
    lines 46, 153 and 204. *)
Definition stripped_keywords (s : string) : list string :=
  Py.strip <$> filter (λ kw, Is_true (Py.truthy (Py.strip kw))) (Py.split "," s).

(** [json.dump(d, f)] on the freshly opened [CONFIG_FILE]. *)
Definition json_dump (d : dict) : M unit :=
  λ w, (Returned (), set_config_json d w).

(** [json.load(f)]; the [FileNotFoundError] of [open] is the [None] case.  A
    file that exists holds a document: a file that cannot be read or does
    not parse (where [json.load] raises another exception than the one line
    33 catches) is not among the states of the model, and nothing below says
    what the code does there. *)
Definition json_load : M (option dict) :=
  λ w, (Returned (config_json w), w).

(** ** ConfigStore: [save_config] (lines 55-63) and [load_config] (28-53) *)

Definition save_config (config : dict) : M unit :=
  _ ← enter (of_save_config config);
  let safe_config :=
    {| at_url := Some (default "" (at_url config));
       at_keywords := Some (default [] (at_keywords config));
       at_sender_email := None;
       at_sender_password := None;
       at_receiver_email := None |} in
  json_dump safe_config.

(** Lines 30-39: the [try] around reading the file. *)
Definition open_config : M dict :=
  stored ← json_load;
  match stored with
  | Some config => mret config
  | None =>
      let config := Dict (Some "") (Some []) None None None in
      _ ← save_config config;
      mret config
  end.

Definition load_config : M dict :=
  _ ← enter of_load_config;
  config ← open_config;
  default_url ← getenv_or "DEFAULT_URL" "";
  let config :=
    Dict (Some (or_else (default "" (at_url config)) default_url))
         (at_keywords config) (at_sender_email config)
         (at_sender_password config) (at_receiver_email config) in
  keywords_env ← getenv_or "DEFAULT_KEYWORDS" "";
  let config :=
    if negb (truthy_list (default [] (at_keywords config))) && Py.truthy keywords_env
    then Dict (at_url config) (Some (stripped_keywords keywords_env))
              (at_sender_email config) (at_sender_password config)
              (at_receiver_email config)
    else config in
  sender_email ← getenv_or "SENDER_EMAIL" "";
  sender_password ← getenv_or "SENDER_EMAIL_PASSWORD" "";
  receiver_email ← getenv_or "RECEIVER_EMAIL" "";
  mret (Dict (at_url config) (at_keywords config)
             (Some sender_email) (Some sender_password) (Some receiver_email)).

(** ** PageFetcher: [scrape_webpage] (lines 65-92) *)

(** Lines 69-82: request, status check, parsing, removal of the script and
    style elements and [soup.get_text()]; the world decides the outcome. *)
Definition soup_get_text (url : string) : M string :=
  λ w, (get_text w url, w).

(** Lines 84-86: strip every line, cut it at double spaces, strip the pieces
    and join the non-empty ones with single spaces. *)
Definition clean_up (text : string) : string :=
  let lines := Py.strip <$> Py.splitlines text in
  let chunks := flat_map (λ line, Py.strip <$> Py.split "  " line) lines in
  Py.join " " (filter (λ chunk, Is_true (Py.truthy chunk)) chunks).

Definition scrape_webpage (url : string) : M (option string) :=
  _ ← enter (of_scrape_webpage url);
  try_except
    (_ ← log INFO ("Starting to scrape URL: " +:+ url);
     text ← soup_get_text url;
     let text := clean_up text in
     _ ← log INFO ("Successfully scraped " +:+ pretty (String.length text)
                   +:+ " characters from " +:+ url);
     mret (Some text))
    (λ e,
     _ ← log ERROR ("Error scraping webpage " +:+ url +:+ ": " +:+ e);
     mret None).

(** ** Notifier: [send_email] (lines 105-131) *)

(** One call on the SMTP connection: the command reaches the relay, which
    returns or raises. *)
Definition smtp (c : smtp_command) : M unit :=
  λ w, (relay w c, emit (Smtp c) w).

(** [msg.as_string()] *)
Definition msg_as_string (msg : message) : M string :=
  λ w, (as_string w msg, w).

Definition send_email
    (sender_email sender_password receiver_email subject body : string) : M bool :=
  _ ← enter (of_send_email sender_email sender_password receiver_email
                          subject body);
  try_except
    (_ ← log INFO ("Attempting to send email to " +:+ receiver_email);
     let msg := Message sender_email receiver_email subject body in
     _ ← smtp (SMTP "smtp.gmail.com" 587);
     _ ← smtp starttls;
     _ ← smtp (login sender_email sender_password);
     text ← msg_as_string msg;
     _ ← smtp (sendmail sender_email receiver_email text);
     _ ← smtp quit;
     _ ← log INFO "Email sent successfully";
     mret true)
    (λ e,
     _ ← log ERROR ("Error sending email: " +:+ e);
     mret false).

(** ** CheckOrchestrator: [_perform_check] (lines 195-288) *)

(** What the handlers read of Flask's [request]. *)
Record request : Type := Request {
  method : string;
  form : gmap string string;
  headers : gmap string string;
  args : gmap string string;
}.

(** The object given to [jsonify]; [found_keywords] is [None] where the
    source leaves the key out. *)
Record check_result : Type := CheckResult {
  status_of : string;
  message_of : string;
  found_keywords_of : option (list string);
}.

Definition nl : string := String "010" EmptyString.

Definition clock : M string := λ w, (Returned (now w), w).

(** Lines 202-207: the url and the keywords of this check. *)
Definition url_and_keywords (request : request) (config : dict)
    : M (string * list string) :=
  if bool_decide (method request = "POST") then
    config_url ← getitem "url" (at_url config);
    let url := Py.strip (default config_url (form request !! "url")) in
    config_keywords ← getitem "keywords" (at_keywords config);
    let keywords :=
      stripped_keywords
        (default (Py.join "," config_keywords) (form request !! "keywords")) in
    mret (url, keywords)
  else
    url ← getitem "url" (at_url config);
    keywords ← getitem "keywords" (at_keywords config);
    mret (url, keywords).

(** Lines 235-275: the branch taken when keywords were found. *)
Definition notify (config : dict) (url : string)
    (keywords found_keywords : list string) : M check_result :=
  _ ← log INFO ("Keywords found: " +:+ Py.join ", " found_keywords);
  let subject := "Local Event Notifier: Keywords Found on " +:+ url in
  time ← clock;
  let body :=
    "Local Event Notifier Alert" +:+ nl +:+ nl
    +:+ "The following keywords were found on " +:+ url +:+ ":" +:+ nl
    +:+ Py.join ", " found_keywords +:+ nl +:+ nl
    +:+ "Keywords searched: " +:+ Py.join ", " keywords +:+ nl +:+ nl
    +:+ "Time: " +:+ time +:+ nl +:+ nl
    +:+ "This is an automated message from your Local Event Notifier Agent."
    +:+ nl in
  sender_email ← getitem "sender_email" (at_sender_email config);
  sender_password ← getitem "sender_password" (at_sender_password config);
  receiver_email ← getitem "receiver_email" (at_receiver_email config);
  email_sent ← send_email sender_email sender_password receiver_email subject body;
  if email_sent : bool then
    let message := "Keywords found and email sent: " +:+ Py.join ", " found_keywords in
    _ ← log INFO message;
    mret (CheckResult "success" message (Some found_keywords))
  else
    let message := "Keywords found but email failed: " +:+ Py.join ", " found_keywords in
    _ ← log ERROR message;
    mret (CheckResult "warning" message (Some found_keywords)).

(** Lines 225-283: fetch, match and, on a match, notify. *)
Definition fetch_and_match (config : dict) (url : string)
    (keywords : list string) : M check_result :=
  text ← scrape_webpage url;
  match text with
  | None =>
      let message := "Failed to scrape webpage: " +:+ url in
      _ ← log ERROR message;
      mret (CheckResult "error" message None)
  | Some text =>
      _ ← enter (of_check_keywords text keywords);
      let found_keywords := check_keywords text keywords in
      if truthy_list found_keywords then
        notify config url keywords found_keywords
      else
        let message := "No keywords found on the webpage" in
        _ ← log INFO message;
        mret (CheckResult "info" message (Some []))
  end.

(** Lines 209-223: the three validations, then the rest of the pipeline. *)
Definition validate_and_run (config : dict) (url : string)
    (keywords : list string) : M check_result :=
  if negb (Py.truthy url) then
    let message := "No URL configured" in
    _ ← log WARNING message;
    mret (CheckResult "error" message None)
  else if negb (truthy_list keywords) then
    let message := "No keywords configured" in
    _ ← log WARNING message;
    mret (CheckResult "error" message None)
  else
    sender_email ← getitem "sender_email" (at_sender_email config);
    sender_password ← getitem "sender_password" (at_sender_password config);
    receiver_email ← getitem "receiver_email" (at_receiver_email config);
    if negb (Py.truthy sender_email && Py.truthy sender_password
             && Py.truthy receiver_email) then
      let message := "Email configuration incomplete - check your secrets" in
      _ ← log WARNING message;
      mret (CheckResult "error" message None)
    else
      fetch_and_match config url keywords.

Definition _perform_check (request : request) : M check_result :=
  _ ← enter of_perform_check;
  try_except
    (config ← load_config;
     '(url, keywords) ← url_and_keywords request config;
     validate_and_run config url keywords)
    (λ e,
     let message := "Error during check: " +:+ e in
     _ ← log ERROR message;
     mret (CheckResult "error" message None)).

(** ** The endpoints [check] (lines 166-181) and [status] (290-304) *)

Definition truthy_opt (o : option string) : bool :=
  match o with Some s => Py.truthy s | None => false end.

(** [a or b] where [a] and [b] may be [None]. *)
Definition or_opt (a b : option string) : option string :=
  if truthy_opt a then a else b.

(** The handler answers with a JSON body and an HTTP status code; the
    response built by [jsonify] alone is sent with code 200. *)
Definition check (request : request) : M (check_result * N) :=
  check_token ← getenv "CHECK_TOKEN";
  if negb (truthy_opt check_token) then
    _ ← log ERROR "CHECK_TOKEN environment variable is required for API access";
    mret (CheckResult "error" "CHECK_TOKEN not configured" None, 500%N)
  else
    let provided_token :=
      or_opt (headers request !! "X-Check-Token") (args request !! "token") in
    if negb (truthy_opt provided_token)
       || negb (bool_decide (provided_token = check_token)) then
      _ ← log WARNING "Unauthorized check attempt";
      mret (CheckResult "error" "Unauthorized - invalid or missing token" None, 401%N)
    else
      _ ← log INFO "API check triggered";
      result ← _perform_check request;
      mret (result, 200%N).

Record status_json : Type := StatusJson {
  url_configured : bool;
  keywords_configured : bool;
  email_configured : bool;
  config_url : string;
  config_keywords : list string;
  config_sender_email : string;
  config_receiver_email : string;
}.

Definition status : M status_json :=
  config ← load_config;
  url ← getitem "url" (at_url config);
  keywords ← getitem "keywords" (at_keywords config);
  sender_email ← getitem "sender_email" (at_sender_email config);
  sender_password ← getitem "sender_password" (at_sender_password config);
  receiver_email ← getitem "receiver_email" (at_receiver_email config);
  mret {|
    url_configured := Py.truthy url;
    keywords_configured := truthy_list keywords;
    email_configured :=
      Py.truthy sender_email && Py.truthy sender_password
      && Py.truthy receiver_email;
    config_url := url;
    config_keywords := keywords;
    config_sender_email :=
      if Py.truthy sender_email then sender_email else "Not configured";
    config_receiver_email :=
      if Py.truthy receiver_email then receiver_email else "Not configured";
  |}.

(** ** The form handlers [update_config] (lines 139-164) and [check_ui]
    (lines 183-193) *)

(** Lines 143-144 and 187-188, the test
    [not referer or not (request.host in referer)]; [host] is Flask's
    [request.host]. *)
Definition bad_referer (host : string) (request : request) : bool :=
  let referer := default "" (headers request !! "Referer") in
  negb (Py.truthy referer) || negb (Py.contains host referer).

(** What [update_config] answers: the message and category given to
    [flash], and the endpoint of the redirect. *)
Record redirect : Type := Redirect {
  flashed : string * string;
  location : string;
}.

Definition update_config (host : string) (request : request) : M redirect :=
  if bad_referer host request then
    _ ← log WARNING "Invalid referer for config update";
    mret (Redirect ("Invalid request", "error") "index")
  else
    flash ← try_except
      (config ← load_config;
       let config :=
         Dict (Some (Py.strip (default "" (form request !! "url"))))
              (at_keywords config) (at_sender_email config)
              (at_sender_password config) (at_receiver_email config) in
       let config :=
         Dict (at_url config)
              (Some (stripped_keywords (default "" (form request !! "keywords"))))
              (at_sender_email config) (at_sender_password config)
              (at_receiver_email config) in
       _ ← save_config config;
       mret ("Configuration updated successfully!", "success"))
      (λ e,
       _ ← log ERROR ("Error updating configuration: " +:+ e);
       mret ("Error updating configuration", "error"));
    mret (Redirect flash "index").

Definition check_ui (host : string) (request : request) : M (check_result * N) :=
  if bad_referer host request then
    _ ← log WARNING "Invalid referer for UI check";
    mret (CheckResult "error" "Invalid request" None, 400%N)
  else
    _ ← log INFO "UI check triggered";
    result ← _perform_check request;
    mret (result, 200%N).

(** ** The specification's reading of the matcher *)

(** [s] occurs in [t]. *)
Definition Substring (s t : string) : Prop :=
  ∃ pre post, t = pre +:+ s +:+ post.

(** A keyword is matched by a text when its trimmed form is not empty and the
    lower-case form of that trimmed form occurs in the lower-case text. *)
Definition Matches (T k : string) : Prop :=
  Py.strip k ≠ "" ∧ Substring (Py.lower (Py.strip k)) (Py.lower T).

(** The matched keywords as the specification words them: a sublist of the
    keyword list, each kept entry trimmed, order kept. *)
Inductive Match (T : string) : list string → list string → Prop :=
  | Match_nil : Match T [] []
  | Match_keep k K R :
      Matches T k → Match T K R → Match T (k :: K) (Py.strip k :: R)
  | Match_skip k K R :
      ¬ Matches T k → Match T K R → Match T (k :: K) R.

(** ** Notions the properties are stated with *)

(** The token of the caller, as line 175 computes it. *)
Definition provided_token (request : request) : option string :=
  or_opt (headers request !! "X-Check-Token") (args request !! "token").


(** The events an execution from [w] to [w'] added to the trace. *)
Definition since (w w' : world) : list event :=
  drop (length (trace w)) (trace w').

(** The url and the keyword list an invocation of [_perform_check] works
    with: what lines 199-207 compute. *)
Definition effective (request : request) (w : world)
    : outcome (string * list string) :=
  fst ((config ← load_config; url_and_keywords request config) w).

(** The whole session of [send_email] goes through for a message: the relay
    takes the connection, STARTTLS and the login, the message has a text,
    and the relay takes that text and the [quit]. *)
Definition accepted (w : world)
    (sender_email sender_password receiver_email subject body : string) : Prop :=
  relay w (SMTP "smtp.gmail.com" 587) = Returned ()
  ∧ relay w starttls = Returned ()
  ∧ relay w (login sender_email sender_password) = Returned ()
  ∧ (∃ text,
       as_string w (Message sender_email receiver_email subject body)
       = Returned text
       ∧ relay w (sendmail sender_email receiver_email text) = Returned ())
  ∧ relay w quit = Returned ().

(** The world with another value of [SENDER_EMAIL_PASSWORD]. *)
Definition with_password (p : string) (w : world) : world :=
  World (<["SENDER_EMAIL_PASSWORD" := p]> (environ w)) (config_json w)
        (get_text w) (relay w) (as_string w) (now w) (trace w).

(** Closed forms of [load_config]: the document it starts from and the
    state it leaves (lines 30-39), and the merge of lines 43-51. *)
Definition default_config : dict := Dict (Some "") (Some []) None None None.

Definition opened (w : world) : dict * world :=
  match config_json w with
  | Some config => (config, w)
  | None =>
      (default_config,
       set_config_json default_config
         (emit (Call (of_save_config default_config)) w))
  end.

Definition merged (env : gmap string string) (config : dict) : dict :=
  let url := or_else (default "" (at_url config)) (default "" (env !! "DEFAULT_URL")) in
  let keywords_env := default "" (env !! "DEFAULT_KEYWORDS") in
  let keywords :=
    if negb (truthy_list (default [] (at_keywords config))) && Py.truthy keywords_env
    then Some (stripped_keywords keywords_env)
    else at_keywords config in
  Dict (Some url) keywords
       (Some (default "" (env !! "SENDER_EMAIL")))
       (Some (default "" (env !! "SENDER_EMAIL_PASSWORD")))
       (Some (default "" (env !! "RECEIVER_EMAIL"))).

(** The world after further events. *)
Definition extend (evs : list event) (w : world) : world :=
  World (environ w) (config_json w) (get_text w) (relay w) (as_string w) (now w)
        (trace w ++ evs).

(** The calls among some events, in order. *)
Definition calls (evs : list event) : list invocation :=
  omap (λ e, match e with Call f => Some f | _ => None end) evs.

(** The calls every invocation of [_perform_check] starts with: itself,
    [load_config] and, when there is no file yet, the [save_config] that
    creates it. *)
Definition prologue (w : world) : list invocation :=
  [of_perform_check; of_load_config]
  ++ match config_json w with
     | Some _ => []
     | None => [of_save_config default_config]
     end.

Definition secrets_of (config : dict) (s p r : string) : Prop :=
  at_sender_email config = Some s
  ∧ at_sender_password config = Some p
  ∧ at_receiver_email config = Some r.

(** The ways through lines 225-283, each with the result it ends in and the
    calls it makes. *)
Inductive fetched (w : world) (url : string) (keywords : list string)
    (s p r : string) : check_result → list invocation → Prop :=
  | fetch_failed e :
      get_text w url = Raised e →
      fetched w url keywords s p r
        (CheckResult "error" ("Failed to scrape webpage: " +:+ url) None)
        [of_scrape_webpage url]
  | nothing_found raw :
      get_text w url = Returned raw →
      check_keywords (clean_up raw) keywords = [] →
      fetched w url keywords s p r
        (CheckResult "info" "No keywords found on the webpage" (Some []))
        [of_scrape_webpage url; of_check_keywords (clean_up raw) keywords]
  | found_and_notified raw subj body res :
      get_text w url = Returned raw →
      check_keywords (clean_up raw) keywords ≠ [] →
      (accepted w s p r subj body →
       res = CheckResult "success"
               ("Keywords found and email sent: "
                +:+ Py.join ", " (check_keywords (clean_up raw) keywords))
               (Some (check_keywords (clean_up raw) keywords))) →
      (¬ accepted w s p r subj body →
       res = CheckResult "warning"
               ("Keywords found but email failed: "
                +:+ Py.join ", " (check_keywords (clean_up raw) keywords))
               (Some (check_keywords (clean_up raw) keywords))) →
      fetched w url keywords s p r res
        [of_scrape_webpage url; of_check_keywords (clean_up raw) keywords;
         of_send_email s p r subj body].

(** The ways through [_perform_check]: it stops with an error before the
    fetch, or it goes through lines 225-283. *)
Inductive checked (w : world) : check_result → list invocation → Prop :=
  | stopped msg : checked w (CheckResult "error" msg None) (prologue w)
  | ran url keywords s p r res cs :
      fetched w url keywords s p r res cs →
      checked w res (prologue w ++ cs).

(** ** Notions for the properties of the text helpers *)

(** Every character of a string passes a test. *)
Fixpoint every_char (P : ascii → bool) (s : string) : bool :=
  match s with
  | EmptyString => true
  | String c s' => P c && every_char P s'
  end.

Definition not_comma (c : ascii) : bool := negb (bool_decide (c = ","%char)).

(** A keyword as the comprehension leaves it. *)
Definition clean_keyword (k : string) : Prop :=
  k ≠ "" ∧ Py.strip k = k ∧ every_char not_comma k = true.

(** The string does not begin with white space. *)
Definition starts_clean (s : string) : Prop :=
  match s with EmptyString => True | String c _ => Py.isspace c = false end.

Definition not_linebreak (c : ascii) : bool := negb (Py.islinebreak c).

(** The string begins with the space character U+0020. *)
Definition starts_with_space (s : string) : bool :=
  match s with String c _ => bool_decide (c = " "%char) | EmptyString => false end.

(** A chunk of text as [clean_up] joins them. *)
Definition tidy (s : string) : Prop :=
  s ≠ "" ∧ starts_clean s ∧ Py.rstrip s = s ∧ Py.contains "  " s = false.

(** ** A concrete deployment, used to exercise the statements *)

Definition demo_environ : gmap string string :=
  <["SENDER_EMAIL" := "agent@example.org"]>
    (<["SENDER_EMAIL_PASSWORD" := "app-password"]>
       (<["RECEIVER_EMAIL" := "me@example.org"]>
          (<["CHECK_TOKEN" := "s3cret"]> ∅))).

Definition demo_config : dict :=
  Dict (Some "https://example.com") (Some ["sale"; "event"]) None None None.

(** A plain rendering of a message, for the deployments below. *)
Definition demo_as_string (msg : message) : outcome string :=
  Returned ("From: " +:+ msg_From msg +:+ nl
            +:+ "To: " +:+ msg_To msg +:+ nl
            +:+ "Subject: " +:+ msg_Subject msg +:+ nl +:+ nl
            +:+ msg_body msg).

(** The page says "Big Sale Today" and the relay takes every message. *)
Definition demo_world : world :=
  World demo_environ (Some demo_config)
        (λ _, Returned "Big Sale Today") (λ _, Returned ())
        demo_as_string "2024-05-01 12:00:00" [].

Definition post (form headers args : gmap string string) : request :=
  Request "POST" form headers args.

(** The same deployment with no url stored, with an unreachable site, and
    with a page that holds nothing but white space. *)
Definition world_without_url : world :=
  World demo_environ (Some (Dict (Some "") (Some ["sale"; "event"]) None None None))
        (λ _, Returned "Big Sale Today") (λ _, Returned ())
        demo_as_string "2024-05-01 12:00:00" [].

Definition offline_world : world :=
  World demo_environ (Some demo_config)
        (λ _, Raised "timed out") (λ _, Returned ())
        demo_as_string "2024-05-01 12:00:00" [].

Definition blank_page_world : world :=
  World demo_environ (Some demo_config)
        (λ _, Returned "   ") (λ _, Returned ())
        demo_as_string "2024-05-01 12:00:00" [].

(** The same deployment with a relay that refuses the login, with one that
    fails on [quit], with a page that mentions no keyword, and with a stored
    document that has no [keywords] key and no environment default. *)
Definition world_with_bad_password : world :=
  World demo_environ (Some demo_config) (λ _, Returned "Big Sale Today")
        (λ c, match c with
              | login _ _ => Raised "Username and Password not accepted"
              | _ => Returned ()
              end)
        demo_as_string "2024-05-01 12:00:00" [].

Definition world_losing_quit : world :=
  World demo_environ (Some demo_config) (λ _, Returned "Big Sale Today")
        (λ c, match c with
              | quit => Raised "Connection unexpectedly closed"
              | _ => Returned ()
              end)
        demo_as_string "2024-05-01 12:00:00" [].

Definition quiet_page_world : world :=
  World demo_environ (Some demo_config) (λ _, Returned "Nothing to see")
        (λ _, Returned ()) demo_as_string "2024-05-01 12:00:00" [].

Definition world_without_keywords_key : world :=
  World demo_environ (Some (Dict (Some "https://example.com") None None None None))
        (λ _, Returned "Big Sale Today") (λ _, Returned ())
        demo_as_string "2024-05-01 12:00:00" [].

(** The same deployment where the [email] package refuses to make a text of
    a message whose headers hold a line break, as it does for a header value
    with an embedded header. *)
Definition world_refusing_the_message : world :=
  World demo_environ (Some demo_config) (λ _, Returned "Big Sale Today")
        (λ _, Returned ())
        (λ msg,
           if every_char not_linebreak
                (msg_From msg +:+ msg_To msg +:+ msg_Subject msg)
           then demo_as_string msg
           else Raised "header value appears to contain an embedded header")
        "2024-05-01 12:00:00" [].

(** A form sent from the configuration page of the application. *)
Definition demo_form : request :=
  post {["url" := " https://example.org/fair "; "keywords" := "fair, market,"]}
       {["Referer" := "http://localhost:5000/"]} ∅.

(** * Properties *)

(** ** Python's string methods behave as expected on examples *)

Example check_keywords_sale :
  check_keywords "Big Sale Today" ["sale"; "event"] = ["sale"].
Proof. reflexivity. Qed.

Example check_keywords_trim :
  check_keywords "Big Sale Today" ["  "; " SALE "; ""; "day"; "week"] = ["SALE"; "day"].
Proof. reflexivity. Qed.

Example split_examples :
  Py.split "," "a, b,,c," = ["a"; " b"; ""; "c"; ""]
  ∧ Py.split "," "" = [""]
  ∧ Py.split "  " "a   b" = ["a"; " b"]
  ∧ Py.split "  " "a    b" = ["a"; ""; "b"].
Proof. repeat split; reflexivity. Qed.

Example splitlines_examples :
  Py.splitlines "" = []
  ∧ Py.splitlines (String "a" (String "010" (String "010" (String "b" EmptyString))))
    = ["a"; ""; "b"]
  ∧ Py.splitlines (String "a" (String "013" (String "010" (String "b" (String "010" EmptyString)))))
    = ["a"; "b"]
  ∧ Py.splitlines (String "010" (String "013" EmptyString)) = [""; ""].
Proof. repeat split; reflexivity. Qed.

Example strip_examples :
  Py.strip "  a b  " = "a b" ∧ Py.strip "   " = "" ∧ Py.strip "" = ""
  ∧ Py.lower "Big SALE 9" = "big sale 9".
Proof. repeat split; reflexivity. Qed.


Example clean_up_examples :
  clean_up "Big Sale   Today" = "Big Sale Today"
  ∧ clean_up (" Big " +:+ nl +:+ nl +:+ "  Sale  " +:+ nl) = "Big Sale"
  ∧ clean_up "" = ""
  ∧ clean_up "    " = "".
Proof. repeat split; reflexivity. Qed.

Example stripped_keywords_examples :
  stripped_keywords " sale, event ,,  " = ["sale"; "event"]
  ∧ stripped_keywords "" = []
  ∧ stripped_keywords (Py.join "," ["sale"; "event"]) = ["sale"; "event"].
Proof. repeat split; reflexivity. Qed.

(** ** The pipeline on the demonstration deployment *)

Example demo_check_succeeds :
  (_perform_check (post ∅ ∅ ∅) demo_world).1
  = Returned
      (CheckResult "success" "Keywords found and email sent: sale" (Some ["sale"])).
Proof. reflexivity. Qed.

Example demo_check_warns_when_the_relay_refuses :
  (_perform_check (post ∅ ∅ ∅)
     (World demo_environ (Some demo_config) (λ _, Returned "Big Sale Today")
            (λ c, match c with
                  | login _ _ => Raised "Username and Password not accepted"
                  | _ => Returned ()
                  end)
            demo_as_string "2024-05-01 12:00:00" [])).1
  = Returned
      (CheckResult "warning" "Keywords found but email failed: sale" (Some ["sale"])).
Proof. reflexivity. Qed.

Example demo_check_warns_when_the_message_has_no_text :
  (_perform_check
     (post {["url" := "https://example.com/" +:+ nl +:+ "Bcc: x@y"]} ∅ ∅)
     world_refusing_the_message).1
  = Returned
      (CheckResult "warning" "Keywords found but email failed: sale" (Some ["sale"])).
Proof. reflexivity. Qed.

Example demo_check_without_a_stored_keywords_key :
  (_perform_check (post ∅ ∅ ∅)
     (World ∅ (Some (Dict (Some "https://example.com") None None None None))
            (λ _, Returned "Big Sale Today") (λ _, Returned ())
            demo_as_string "2024-05-01 12:00:00" [])).1
  = Returned (CheckResult "error" "Error during check: 'keywords'" None).
Proof. reflexivity. Qed.

Example demo_first_load_creates_the_file :
  config_json
    (load_config
       (World demo_environ None (λ _, Raised "unreachable") (λ _, Returned ())
              demo_as_string "2024-05-01 12:00:00" [])).2
  = Some default_config.
Proof. reflexivity. Qed.

(** ** KeywordMatcher *)

Section Matcher.

Lemma startswith_spec p s :
  Py.startswith p s = true ↔ ∃ post, s = p +:+ post.
Proof.
  revert s. induction p as [|a p IH]; intros s; simpl.
  - split; [intros _; by exists s | done].
  - destruct s as [|b s].
    + split; [done | intros [post H]; discriminate H].
    + rewrite andb_true_iff, bool_decide_eq_true, IH. split.
      * intros [-> [post ->]]. by exists post.
      * intros [post H]. injection H as -> ->. eauto.
Qed.

Lemma contains_spec sub s :
  Py.contains sub s = true ↔ Substring sub s.
Proof.
  unfold Substring. induction s as [|c s IH].
  - simpl. rewrite orb_false_r, startswith_spec. split.
    + intros [post H]. by exists EmptyString, post.
    + intros [[|? pre] [post H]]; [by exists post | discriminate H].
  - cbn [Py.contains]. rewrite orb_true_iff, startswith_spec, IH. split.
    + intros [[post H] | (pre & post & H)].
      * by exists EmptyString, post.
      * exists (String c pre), post. simpl. by rewrite H.
    + intros [[|a pre] [post H]].
      * left. by exists post.
      * right. simpl in H. injection H as _ H. by exists pre, post.
Qed.

Lemma truthy_spec s : Py.truthy s = true ↔ s ≠ "".
Proof. by destruct s. Qed.

Lemma keyword_test_spec T k :
  Py.truthy (Py.strip k) && Py.contains (Py.lower (Py.strip k)) (Py.lower T) = true
  ↔ Matches T k.
Proof.
  unfold Matches. by rewrite andb_true_iff, truthy_spec, contains_spec.
Qed.

(** The accumulator of the loop only grows at its end. *)
Lemma check_keywords_loop tl K acc :
  fold_left (check_keywords_step tl) K acc
  = acc ++ fold_left (check_keywords_step tl) K [].
Proof.
  revert acc. induction K as [|k K IH]; intros acc; simpl.
  - by rewrite app_nil_r.
  - rewrite (IH (check_keywords_step tl acc k)).
    rewrite (IH (check_keywords_step tl [] k)).
    unfold check_keywords_step. case_match; simpl; [|done].
    by rewrite <- app_assoc.
Qed.

Lemma check_keywords_cons T k K :
  check_keywords T (k :: K)
  = (if Py.truthy (Py.strip k)
        && Py.contains (Py.lower (Py.strip k)) (Py.lower T)
     then [Py.strip k] else []) ++ check_keywords T K.
Proof.
  unfold check_keywords. simpl. rewrite check_keywords_loop.
  unfold check_keywords_step. by case_match.
Qed.

Lemma Match_check_keywords T K : Match T K (check_keywords T K).
Proof.
  induction K as [|k K IH]; [constructor|].
  rewrite check_keywords_cons.
  destruct (Py.truthy _ && _) eqn:E; simpl.
  - apply Match_keep; [by apply keyword_test_spec | done].
  - apply Match_skip; [|done].
    intros H%keyword_test_spec. congruence.
Qed.

Lemma Match_functional T K R1 R2 : Match T K R1 → Match T K R2 → R1 = R2.
Proof.
  intros H1. revert R2.
  induction H1 as [|k K R Hk _ IH|k K R Hk _ IH]; intros R2 H2;
    inversion H2; subst; try done.
  by f_equal; apply IH.
  all: by apply IH.
Qed.

End Matcher.

(** C1. For every text [T] and keyword list [K], the list [check_keywords]
    returns is exactly the list the specification describes: the trimmed
    forms of those entries of [K] whose trimmed form is not empty and,
    lower-cased, occurs in the lower-cased text, in the order of [K]. *)
Theorem check_keywords_exact (T : string) (K R : list string) :
  check_keywords T K = R ↔ Match T K R.
Proof.
  split.
  - intros <-. apply Match_check_keywords.
  - intros H. eapply Match_functional; [apply Match_check_keywords | done].
Qed.

(** ** ConfigStore *)

Section ConfigStore.

Lemma environ_opened w : environ (opened w).2 = environ w.
Proof. unfold opened. by destruct (config_json w). Qed.

Lemma save_config_run config w :
  save_config config w
  = (Returned (),
     set_config_json
       (Dict (Some (default "" (at_url config)))
             (Some (default [] (at_keywords config))) None None None)
       (emit (Call (of_save_config config)) w)).
Proof. reflexivity. Qed.

Lemma load_config_run w :
  load_config w
  = (Returned (merged (environ w) (opened (emit (Call of_load_config) w)).1),
     (opened (emit (Call of_load_config) w)).2).
Proof.
  unfold load_config, merged, opened, open_config, json_load, getenv_or, enter,
    mbind, M_bind, mret, M_ret.
  simpl. destruct (config_json w) as [config|]; simpl; by case_match.
Qed.

Lemma merged_with_password env p config :
  merged (<["SENDER_EMAIL_PASSWORD" := p]> env) config
  = Dict (at_url (merged env config)) (at_keywords (merged env config))
         (at_sender_email (merged env config)) (Some p)
         (at_receiver_email (merged env config)).
Proof.
  unfold merged. rewrite lookup_insert_eq.
  by rewrite !lookup_insert_ne by done.
Qed.

End ConfigStore.

(** C6. Saving a configuration whose url and keyword list are not empty and
    loading it again gives back that url and that keyword list, together
    with the three mail settings read from the environment. *)
Theorem save_then_load (config : dict) (u : string) (ks : list string) (w : world) :
  at_url config = Some u → u ≠ "" →
  at_keywords config = Some ks → ks ≠ [] →
  ((_ ← save_config config; load_config) w).1
  = Returned
      (Dict (Some u) (Some ks)
            (Some (default "" (environ w !! "SENDER_EMAIL")))
            (Some (default "" (environ w !! "SENDER_EMAIL_PASSWORD")))
            (Some (default "" (environ w !! "RECEIVER_EMAIL")))).
Proof.
  intros Hu Hu' Hks Hks'.
  unfold mbind at 1. unfold M_bind. rewrite save_config_run, load_config_run.
  rewrite Hu, Hks. unfold opened, merged. simpl.
  destruct u; [done|]. destruct ks; [done|]. reflexivity.
Qed.

Lemma save_then_load_u_a_b :
  ((_ ← save_config (Dict (Some "u") (Some ["a"; "b"]) (Some "x@y") (Some "pw") None);
    load_config) demo_world).1
  = Returned
      (Dict (Some "u") (Some ["a"; "b"])
            (Some "agent@example.org") (Some "app-password")
            (Some "me@example.org")).
Proof.
  apply (save_then_load
           (Dict (Some "u") (Some ["a"; "b"]) (Some "x@y") (Some "pw") None)
           "u" ["a"; "b"] demo_world); done.
Defined.

(** C7. Whatever configuration [save_config] is given, secret fields
    included, the document it writes has exactly the two fields url and
    keywords; and the three secret fields [load_config] returns are the
    values of the environment, whatever the stored document holds. *)
Theorem save_config_keeps_no_secret (config : dict) (w : world) :
  (∃ w' d,
      save_config config w = (Returned (), w')
      ∧ config_json w' = Some d
      ∧ keys d = ["url"; "keywords"]
      ∧ at_url d = Some (default "" (at_url config))
      ∧ at_keywords d = Some (default [] (at_keywords config))
      ∧ at_sender_email d = None
      ∧ at_sender_password d = None
      ∧ at_receiver_email d = None)
  ∧ (∃ w' loaded,
      load_config w = (Returned loaded, w')
      ∧ at_sender_email loaded = Some (default "" (environ w !! "SENDER_EMAIL"))
      ∧ at_sender_password loaded
        = Some (default "" (environ w !! "SENDER_EMAIL_PASSWORD"))
      ∧ at_receiver_email loaded = Some (default "" (environ w !! "RECEIVER_EMAIL"))).
Proof.
  split.
  - eexists _, _. rewrite save_config_run. by repeat split.
  - eexists _, _. rewrite load_config_run. by repeat split.
Qed.

(** ** The status endpoint *)

Lemma status_run w :
  status w
  = (let config := merged (environ w) (opened (emit (Call of_load_config) w)).1 in
     match at_keywords config with
     | Some keywords =>
         Returned
           {| url_configured := Py.truthy (default "" (at_url config));
              keywords_configured := truthy_list keywords;
              email_configured :=
                Py.truthy (default "" (at_sender_email config))
                && Py.truthy (default "" (at_sender_password config))
                && Py.truthy (default "" (at_receiver_email config));
              config_url := default "" (at_url config);
              config_keywords := keywords;
              config_sender_email :=
                if Py.truthy (default "" (at_sender_email config))
                then default "" (at_sender_email config) else "Not configured";
              config_receiver_email :=
                if Py.truthy (default "" (at_receiver_email config))
                then default "" (at_receiver_email config) else "Not configured" |}
     | None => Raised "'keywords'"
     end,
     (opened (emit (Call of_load_config) w)).2).
Proof.
  unfold status. unfold mbind at 1. unfold M_bind. rewrite load_config_run.
  set (c := (opened _).1). set (w' := (opened _).2).
  unfold merged. simpl.
  destruct (negb _ && _); simpl; [done|].
  by destruct (at_keywords c).
Qed.

Lemma opened_with_password p w e :
  (opened (emit e (with_password p w))).1 = (opened (emit e w)).1
  ∧ config_json (opened (emit e (with_password p w))).2
    = config_json (opened (emit e w)).2
  ∧ trace (opened (emit e (with_password p w))).2 = trace (opened (emit e w)).2.
Proof. unfold opened. simpl. by destruct (config_json w). Qed.

(** C10. The answer of [status] depends on the sender password only through
    its being empty or not: two worlds that differ in nothing but the value
    of [SENDER_EMAIL_PASSWORD], both values empty or both not, get the same
    answer and are left with the same file and the same trace. *)
Theorem status_hides_password (w : world) (p1 p2 : string) :
  Py.truthy p1 = Py.truthy p2 →
  (status (with_password p1 w)).1 = (status (with_password p2 w)).1
  ∧ config_json (status (with_password p1 w)).2
    = config_json (status (with_password p2 w)).2
  ∧ trace (status (with_password p1 w)).2 = trace (status (with_password p2 w)).2.
Proof.
  intros Hp. rewrite !status_run.
  destruct (opened_with_password p1 w (Call of_load_config)) as (E1 & F1 & T1).
  destruct (opened_with_password p2 w (Call of_load_config)) as (E2 & F2 & T2).
  cbn [fst snd]. rewrite F1, F2, T1, T2. split; [|done].
  cbn [environ with_password emit]. rewrite !merged_with_password, E1, E2.
  cbn [at_url at_keywords at_sender_email at_sender_password at_receiver_email default].
  unfold id. by rewrite Hp.
Qed.

Lemma status_hides_password_demo :
  (status (with_password "app-password" demo_world)).1
  = (status (with_password "hunter2" demo_world)).1
  ∧ config_json (status (with_password "app-password" demo_world)).2
    = config_json (status (with_password "hunter2" demo_world)).2
  ∧ trace (status (with_password "app-password" demo_world)).2
    = trace (status (with_password "hunter2" demo_world)).2.
Proof.
  apply (status_hides_password demo_world "app-password" "hunter2"). reflexivity.
Defined.

(** ** Running the effectful functions *)

Ltac run :=
  unfold try_except, log, enter, smtp, raise, clock, getenv, getenv_or,
    soup_get_text, json_load, json_dump, getitem, mbind, M_bind, mret, M_ret in *.

Section Runs.

Lemma since_app w w' evs : trace w' = trace w ++ evs → since w w' = evs.
Proof. unfold since. intros ->. apply drop_app_length. Qed.

Lemma emit_as_extend e w : emit e w = extend [e] w.
Proof. reflexivity. Qed.

Lemma emit_extend e evs w : emit e (extend evs w) = extend (evs ++ [e]) w.
Proof. unfold emit, extend. simpl. by rewrite app_assoc. Qed.

Lemma extend_extend evs1 evs2 w :
  extend evs2 (extend evs1 w) = extend (evs1 ++ evs2) w.
Proof. unfold extend. simpl. by rewrite app_assoc. Qed.

Lemma since_extend_after pre evs w w1 :
  trace w1 = trace w ++ pre → since w (extend evs w1) = pre ++ evs.
Proof.
  intros H. apply since_app. unfold extend. simpl. by rewrite H, app_assoc.
Qed.

Lemma calls_app evs1 evs2 : calls (evs1 ++ evs2) = calls evs1 ++ calls evs2.
Proof. apply omap_app. Qed.

Lemma In_calls f evs : In (Call f) evs ↔ In f (calls evs).
Proof.
  unfold calls. rewrite <- !list_elem_of_In, list_elem_of_omap. split.
  - intros H. by exists (Call f).
  - intros ([] & H & E); by simplify_eq.
Qed.

Lemma prologue_only w f :
  In f (prologue w) →
  f = of_perform_check ∨ f = of_load_config ∨ f = of_save_config default_config.
Proof.
  unfold prologue. destruct (config_json w); simpl; intuition.
Qed.

Lemma truthy_list_false {A} (l : list A) : truthy_list l = false ↔ l = [].
Proof. by destruct l. Qed.

Lemma accepted_frame w1 w s p r subj body :
  relay w1 = relay w → as_string w1 = as_string w →
  accepted w1 s p r subj body ↔ accepted w s p r subj body.
Proof. unfold accepted. by intros -> ->. Qed.

Lemma fetched_frame w1 w url keywords s p r res cs :
  get_text w1 = get_text w → relay w1 = relay w → as_string w1 = as_string w →
  fetched w1 url keywords s p r res cs → fetched w url keywords s p r res cs.
Proof.
  intros Hg Hr Hs H. destruct H as [e H|raw H H0|raw subj body res H H0 Hok Hko];
    rewrite Hg in H.
  - by eapply fetch_failed.
  - by apply nothing_found.
  - apply found_and_notified; [done..| |]; intros Ha; [apply Hok|apply Hko];
      by rewrite accepted_frame.
Qed.

End Runs.

Ltac to_extend w := rewrite ?(emit_as_extend _ w), ?emit_extend; simpl app.

(** A session that breaks off: the handler answers [False]. *)
Ltac refused w :=
  eexists false, _; to_extend w;
  split;
    [reflexivity
    |split;
       [done
       |split; [split; [done | intros (?&?&?&(?&?&?)&?); congruence] | done]]].

Lemma send_email_run s p r subj body w :
  ∃ b evs,
    send_email s p r subj body w
    = (Returned b, extend (Call (of_send_email s p r subj body) :: evs) w)
    ∧ calls evs = []
    ∧ (b = true ↔ accepted w s p r subj body)
    ∧ (b = true →
       ∃ text,
         as_string w (Message s r subj body) = Returned text
         ∧ relay w (sendmail s r text) = Returned ()
         ∧ In (Smtp (sendmail s r text)) evs).
Proof.
  unfold send_email, accepted. run. unfold msg_as_string.
  cbn [relay as_string emit].
  destruct (relay w (SMTP _ _)) as [[]|e1] eqn:E1; cbn [relay as_string emit];
    [|refused w].
  destruct (relay w starttls) as [[]|e2] eqn:E2; cbn [relay as_string emit];
    [|refused w].
  destruct (relay w (login _ _)) as [[]|e3] eqn:E3; cbn [relay as_string emit];
    [|refused w].
  destruct (as_string w (Message s r subj body)) as [text|e4] eqn:E4;
    cbn [relay as_string emit]; [|refused w].
  destruct (relay w (sendmail s r text)) as [[]|e5] eqn:E5;
    cbn [relay as_string emit]; [|refused w].
  destruct (relay w quit) as [[]|e6] eqn:E6; cbn [relay as_string emit];
    [|refused w].
  eexists true, _. to_extend w. split; [reflexivity|].
  split; [done|]. split.
  - split; [intros _|done]. split_and!; try done. by exists text.
  - intros _. exists text. split; [done|]. split; [done|]. simpl. tauto.
Qed.

(** C9. [send_email] always returns to its caller, whatever the relay and
    the [email] package do: it returns [True] exactly when every step of the
    session went through (connection, STARTTLS, login, the text of the
    message, [sendmail] of that text, [quit]), and then the text of the
    message was handed over by [sendmail]; as soon as one step raises, it
    returns [False]. *)
Theorem send_email_never_raises (s p r subj body : string) (w : world) :
  ∃ b w',
    send_email s p r subj body w = (Returned b, w')
    ∧ (b = true ↔ accepted w s p r subj body)
    ∧ (b = true →
       ∃ text,
         as_string w (Message s r subj body) = Returned text
         ∧ relay w (sendmail s r text) = Returned ()
         ∧ In (Smtp (sendmail s r text)) (since w w')).
Proof.
  destruct (send_email_run s p r subj body w) as (b & evs & E & _ & Hb & Hin).
  exists b, (extend (Call (of_send_email s p r subj body) :: evs) w).
  split; [done|]. split; [done|]. intros Ht.
  destruct (Hin Ht) as (text & Htext & Hsent & Hev).
  exists text. split; [done|]. split; [done|].
  rewrite (since_app _ _ (Call (of_send_email s p r subj body) :: evs)); [|done].
  by right.
Qed.

(** ** CheckOrchestrator *)

Lemma scrape_webpage_run url w :
  scrape_webpage url w
  = match get_text w url with
    | Returned raw =>
        (Returned (Some (clean_up raw)),
         extend [Call (of_scrape_webpage url);
                 Log INFO ("Starting to scrape URL: " +:+ url);
                 Log INFO ("Successfully scraped "
                           +:+ pretty (String.length (clean_up raw))
                           +:+ " characters from " +:+ url)] w)
    | Raised e =>
        (Returned None,
         extend [Call (of_scrape_webpage url);
                 Log INFO ("Starting to scrape URL: " +:+ url);
                 Log ERROR ("Error scraping webpage " +:+ url +:+ ": " +:+ e)] w)
    end.
Proof.
  unfold scrape_webpage. run. cbn [get_text emit].
  destruct (get_text w url); by to_extend w.
Qed.

Lemma notify_run config url keywords found s p r w :
  secrets_of config s p r →
  ∃ subj body evs res,
    notify config url keywords found w = (Returned res, extend evs w)
    ∧ calls evs = [of_send_email s p r subj body]
    ∧ (accepted w s p r subj body →
       res = CheckResult "success"
               ("Keywords found and email sent: " +:+ Py.join ", " found)
               (Some found))
    ∧ (¬ accepted w s p r subj body →
       res = CheckResult "warning"
               ("Keywords found but email failed: " +:+ Py.join ", " found)
               (Some found)).
Proof.
  intros (Hs & Hp & Hr). unfold notify. rewrite Hs, Hp, Hr. run.
  cbn [emit now].
  match goal with |- context [send_email s p r ?subj ?body ?w1] =>
    destruct (send_email_run s p r subj body w1) as (b & evs & -> & Hc & Hb & _);
    exists subj, body end.
  rewrite (emit_as_extend _ w), extend_extend.
  destruct b.
  - eexists _, _. to_extend w. split; [reflexivity|].
    split; [cbn; by rewrite calls_app, Hc|]. split; [done|].
    intros []. by apply Hb.
  - eexists _, _. to_extend w. split; [reflexivity|].
    split; [cbn; by rewrite calls_app, Hc|]. split; [|done].
    by intros H%Hb.
Qed.

Lemma fetch_and_match_run config url keywords s p r w :
  secrets_of config s p r →
  ∃ res evs,
    fetch_and_match config url keywords w = (Returned res, extend evs w)
    ∧ fetched w url keywords s p r res (calls evs).
Proof.
  intros Hsec. unfold fetch_and_match. unfold mbind at 1. unfold M_bind.
  rewrite scrape_webpage_run. destruct (get_text w url) as [raw|e] eqn:Hget.
  - run. destruct (truthy_list (check_keywords (clean_up raw) keywords)) eqn:Hfound.
    + rewrite emit_extend. simpl app.
      match goal with |- context [notify _ _ _ _ ?w1] =>
        destruct (notify_run config url keywords
                    (check_keywords (clean_up raw) keywords) s p r w1 Hsec)
          as (subj & body & evs & res & -> & Hc & Hok & Hko) end.
      rewrite extend_extend. eexists _, _. split; [reflexivity|].
      rewrite calls_app, Hc. cbn.
      eapply found_and_notified; eauto.
      intros H%truthy_list_false. congruence.
    + apply truthy_list_false in Hfound.
      eexists _, _. rewrite !emit_extend. simpl app. split; [reflexivity|].
      cbn. by apply nothing_found.
  - run. eexists _, _. rewrite !emit_extend. simpl app. split; [reflexivity|].
    cbn. by eapply fetch_failed.
Qed.

Lemma validate_and_run_run config url keywords s p r w :
  secrets_of config s p r →
  ∃ res evs,
    validate_and_run config url keywords w = (Returned res, extend evs w)
    ∧ ((∃ msg, res = CheckResult "error" msg None ∧ calls evs = [])
       ∨ fetched w url keywords s p r res (calls evs)).
Proof.
  intros Hsec. unfold validate_and_run.
  destruct (negb (Py.truthy url)).
  { eexists _, _. run. rewrite emit_as_extend. split; [reflexivity|]. left. eauto. }
  destruct (negb (truthy_list keywords)).
  { eexists _, _. run. rewrite emit_as_extend. split; [reflexivity|]. left. eauto. }
  destruct Hsec as (Hs & Hp & Hr). rewrite Hs, Hp, Hr. run.
  destruct (negb _).
  { eexists _, _. rewrite emit_as_extend. split; [reflexivity|]. left. eauto. }
  destruct (fetch_and_match_run config url keywords s p r w) as (res & evs & -> & H);
    [done|].
  eexists _, _. split; [reflexivity|]. by right.
Qed.

Lemma merged_secrets env config :
  secrets_of (merged env config)
    (default "" (env !! "SENDER_EMAIL"))
    (default "" (env !! "SENDER_EMAIL_PASSWORD"))
    (default "" (env !! "RECEIVER_EMAIL")).
Proof. done. Qed.

Lemma url_and_keywords_pure request config w :
  url_and_keywords request config w = ((url_and_keywords request config w).1, w).
Proof.
  unfold url_and_keywords. case_bool_decide; run;
    by destruct (at_url config), (at_keywords config).
Qed.

Lemma url_and_keywords_any_world request config w w' :
  (url_and_keywords request config w).1 = (url_and_keywords request config w').1.
Proof.
  unfold url_and_keywords. case_bool_decide; run;
    by destruct (at_url config), (at_keywords config).
Qed.

Lemma perform_check_run request w :
  _perform_check request w
  = let w0 := emit (Call of_load_config) (emit (Call of_perform_check) w) in
    let config := merged (environ w) (opened w0).1 in
    match url_and_keywords request config (opened w0).2 with
    | (Returned (url, keywords), w2) =>
        match validate_and_run config url keywords w2 with
        | (Returned a, w3) => (Returned a, w3)
        | (Raised e, w3) =>
            (Returned (CheckResult "error" ("Error during check: " +:+ e) None),
             emit (Log ERROR ("Error during check: " +:+ e)) w3)
        end
    | (Raised e, w2) =>
        (Returned (CheckResult "error" ("Error during check: " +:+ e) None),
         emit (Log ERROR ("Error during check: " +:+ e)) w2)
    end.
Proof.
  unfold _perform_check. unfold try_except, mbind, M_bind, enter.
  rewrite load_config_run. cbn [environ emit].
  destruct (url_and_keywords _ _ _) as [[[url keywords]|e] w2]; [|done].
  by destruct (validate_and_run _ _ _ _) as [[a|e] w3].
Qed.

Lemma opened_for_check w :
  let w1 := (opened (emit (Call of_load_config) (emit (Call of_perform_check) w))).2 in
  get_text w1 = get_text w ∧ relay w1 = relay w
  ∧ ∃ pre, trace w1 = trace w ++ pre ∧ calls pre = prologue w.
Proof.
  unfold opened, prologue. cbn [config_json emit].
  destruct (config_json w); cbn [snd]; (split; [done|]); (split; [done|]).
  - exists [Call of_perform_check; Call of_load_config].
    split; [|reflexivity]. simpl. by rewrite <- !app_assoc.
  - exists [Call of_perform_check; Call of_load_config;
            Call (of_save_config default_config)].
    split; [|reflexivity]. simpl. by rewrite <- !app_assoc.
Qed.

Lemma opened_as_string w : as_string (opened w).2 = as_string w.
Proof. unfold opened. by destruct (config_json w). Qed.

(** Every invocation returns a result, along one of the ways of [checked]. *)
Lemma perform_check_paths request w :
  ∃ res w',
    _perform_check request w = (Returned res, w')
    ∧ checked w res (calls (since w w')).
Proof.
  rewrite perform_check_run. cbv zeta.
  set (config := merged _ _).
  destruct (opened_for_check w) as (Hg & Hr & pre & Ht & Hpre).
  revert Hg Hr Ht.
  set (w1 := (opened _).2). intros Hg Hr Ht.
  rewrite (url_and_keywords_pure request config w1).
  destruct (url_and_keywords _ _ _).1 as [[url keywords]|e].
  - destruct (validate_and_run_run config url keywords _ _ _ w1
                (merged_secrets _ _)) as (res & evs & -> & H).
    eexists _, _. split; [reflexivity|].
    rewrite (since_extend_after pre); [|done]. rewrite calls_app, Hpre.
    destruct H as [(msg & -> & ->)|H].
    + rewrite app_nil_r. apply stopped.
    + eapply ran. eapply fetched_frame; [done..| |done].
      subst w1. by rewrite opened_as_string.
  - eexists _, _. split; [reflexivity|].
    rewrite emit_as_extend, (since_extend_after pre); [|done].
    rewrite calls_app, Hpre. cbn. rewrite app_nil_r. apply stopped.
Qed.

(** C2. In an invocation of [_perform_check] that calls [check_keywords] and
    gets a non-empty list from it, [send_email] is called; when the send
    goes through (the message has a text and the relay takes the session)
    the result is a success carrying the matched list, and when it does not
    the result is a warning whose message tells that the email failed and
    which carries the matched list all the same. *)
Theorem found_keywords_are_notified
    (request : request) (w : world) (text : string) (keywords : list string) :
  In (Call (of_check_keywords text keywords)) (since w (_perform_check request w).2) →
  check_keywords text keywords ≠ [] →
  ∃ s p r subj body,
    In (Call (of_send_email s p r subj body)) (since w (_perform_check request w).2)
    ∧ (accepted w s p r subj body →
       (_perform_check request w).1
       = Returned
           (CheckResult "success"
              ("Keywords found and email sent: "
               +:+ Py.join ", " (check_keywords text keywords))
              (Some (check_keywords text keywords))))
    ∧ (¬ accepted w s p r subj body →
       (_perform_check request w).1
       = Returned
           (CheckResult "warning"
              ("Keywords found but email failed: "
               +:+ Py.join ", " (check_keywords text keywords))
              (Some (check_keywords text keywords)))).
Proof.
  destruct (perform_check_paths request w) as (res & w' & -> & Hpath).
  cbn [fst snd]. rewrite In_calls. intros Hin Hne.
  remember (calls (since w w')) as cs' eqn:Hcs.
  destruct Hpath as [msg|url ks s p r res cs Hf].
  { apply prologue_only in Hin. by destruct Hin as [|[|]]. }
  apply in_app_or in Hin as [Hin|Hin].
  { apply prologue_only in Hin. by destruct Hin as [|[|]]. }
  destruct Hf as [e H|raw H H0|raw subj body res H H0 Hok Hko]; simpl in Hin.
  - by destruct Hin as [|[]].
  - destruct Hin as [|[Hin|[]]]; [done|]. by simplify_eq.
  - destruct Hin as [|[Hin|[|[]]]]; [done| |done]. simplify_eq.
    exists s, p, r, subj, body. split.
    + apply In_calls. rewrite <- Hcs. apply in_or_app. right. simpl. tauto.
    + split; intros Ha; f_equal; auto.
Qed.

Lemma found_keywords_are_notified_demo :
  ∃ s p r subj body,
    In (Call (of_send_email s p r subj body))
       (since demo_world (_perform_check (post ∅ ∅ ∅) demo_world).2)
    ∧ (accepted demo_world s p r subj body →
       (_perform_check (post ∅ ∅ ∅) demo_world).1
       = Returned
           (CheckResult "success"
              ("Keywords found and email sent: "
               +:+ Py.join ", " (check_keywords "Big Sale Today" ["sale"; "event"]))
              (Some (check_keywords "Big Sale Today" ["sale"; "event"]))))
    ∧ (¬ accepted demo_world s p r subj body →
       (_perform_check (post ∅ ∅ ∅) demo_world).1
       = Returned
           (CheckResult "warning"
              ("Keywords found but email failed: "
               +:+ Py.join ", " (check_keywords "Big Sale Today" ["sale"; "event"]))
              (Some (check_keywords "Big Sale Today" ["sale"; "event"])))).
Proof.
  apply (found_keywords_are_notified (post ∅ ∅ ∅) demo_world
           "Big Sale Today" ["sale"; "event"]).
  - vm_compute. auto 10.
  - vm_compute. discriminate.
Defined.

(** C4, as the code has it.  In an invocation of [_perform_check] that calls
    [scrape_webpage] on a url whose fetch raises, the result is an error
    whose message names the url, and neither [check_keywords] nor
    [send_email] is called. *)
Theorem failed_fetch_ends_the_check
    (request : request) (w : world) (url e : string) :
  In (Call (of_scrape_webpage url)) (since w (_perform_check request w).2) →
  get_text w url = Raised e →
  (_perform_check request w).1
  = Returned (CheckResult "error" ("Failed to scrape webpage: " +:+ url) None)
  ∧ (∀ text keywords,
       ¬ In (Call (of_check_keywords text keywords))
            (since w (_perform_check request w).2))
  ∧ (∀ s p r subj body,
       ¬ In (Call (of_send_email s p r subj body))
            (since w (_perform_check request w).2)).
Proof.
  destruct (perform_check_paths request w) as (res & w' & -> & Hpath).
  cbn [fst snd]. rewrite In_calls. intros Hin Hget.
  assert (∀ f, In (Call f) (since w w') → In f (calls (since w w'))) as Hcalls
    by (intros f; apply In_calls).
  remember (calls (since w w')) as cs' eqn:Hcs. clear Hcs.
  destruct Hpath as [msg|url' ks s p r res cs Hf].
  { apply prologue_only in Hin. by destruct Hin as [|[|]]. }
  apply in_app_or in Hin as [Hin|Hin].
  { apply prologue_only in Hin. by destruct Hin as [|[|]]. }
  assert (url' = url) as ->.
  { destruct Hf; simpl in Hin; destruct_or!; by simplify_eq. }
  destruct Hf as [e' H|raw H H0|raw subj body res H H0 Hok Hko]; [|congruence..].
  split; [done|].
  split; intros; intros Hc%Hcalls; apply in_app_or in Hc as [Hc|Hc].
  all: try (apply prologue_only in Hc; by destruct Hc as [|[|]]).
  all: simpl in Hc; by destruct Hc as [|[]].
Qed.

Lemma failed_fetch_ends_the_check_demo :
  (_perform_check (post ∅ ∅ ∅) offline_world).1
  = Returned
      (CheckResult "error" ("Failed to scrape webpage: " +:+ "https://example.com")
         None)
  ∧ (∀ text keywords,
       ¬ In (Call (of_check_keywords text keywords))
            (since offline_world (_perform_check (post ∅ ∅ ∅) offline_world).2))
  ∧ (∀ s p r subj body,
       ¬ In (Call (of_send_email s p r subj body))
            (since offline_world (_perform_check (post ∅ ∅ ∅) offline_world).2)).
Proof.
  apply (failed_fetch_ends_the_check (post ∅ ∅ ∅) offline_world
           "https://example.com" "timed out").
  - vm_compute. auto 10.
  - reflexivity.
Defined.

(** C4 as the specification words it does not hold: a fetch that yields a
    page without text is not an error.  [scrape_webpage] returns the empty
    string, which is not [None]; [check_keywords] is called on it and the
    invocation ends with an "info" result. *)
Lemma empty_page_is_not_a_failed_fetch :
  get_text blank_page_world "https://example.com" = Returned "   "
  ∧ (scrape_webpage "https://example.com" blank_page_world).1
    = Returned (Some "")
  ∧ ∃ result,
      (_perform_check (post ∅ ∅ ∅) blank_page_world).1 = Returned result
      ∧ status_of result = "info"
      ∧ status_of result ≠ "error"
      ∧ In (Call (of_check_keywords "" ["sale"; "event"]))
           (since blank_page_world
              (_perform_check (post ∅ ∅ ∅) blank_page_world).2).
Proof.
  split; [reflexivity|]. split; [reflexivity|].
  eexists. split; [reflexivity|]. split; [reflexivity|]. split; [discriminate|].
  vm_compute. auto 10.
Qed.

Lemma opened_emit e w : (opened (emit e w)).1 = (opened w).1.
Proof. unfold opened. simpl. by destruct (config_json w). Qed.

Lemma effective_run request w :
  effective request w
  = (url_and_keywords request (merged (environ w) (opened w).1) w).1.
Proof.
  unfold effective. unfold mbind, M_bind. rewrite load_config_run.
  rewrite opened_emit. cbn [fst snd].
  rewrite (url_and_keywords_pure _ _ (opened _).2).
  apply url_and_keywords_any_world.
Qed.

(** C3, as the code has it.  An invocation of [_perform_check] whose
    effective url is empty returns an error with the message "No URL
    configured"; the result has no [found_keywords] field. *)
Theorem no_url_is_an_error
    (request : request) (w : world) (keywords : list string) :
  effective request w = Returned ("", keywords) →
  (_perform_check request w).1
  = Returned (CheckResult "error" "No URL configured" None).
Proof.
  rewrite effective_run, perform_check_run. cbv zeta. intros Heff.
  rewrite !opened_emit.
  rewrite (url_and_keywords_pure _ _ (opened _).2).
  rewrite (url_and_keywords_any_world _ _ _ w), Heff.
  reflexivity.
Qed.

Lemma no_url_is_an_error_demo :
  (_perform_check (post ∅ ∅ ∅) world_without_url).1
  = Returned (CheckResult "error" "No URL configured" None).
Proof.
  apply (no_url_is_an_error (post ∅ ∅ ∅) world_without_url ["sale"; "event"]).
  reflexivity.
Defined.

(** C3 as the specification words it does not hold: the error result for a
    missing url carries no [found_keywords] at all, where the wording has an
    empty list. *)
Lemma no_url_result_has_no_found_keywords :
  effective (post ∅ ∅ ∅) world_without_url = Returned ("", ["sale"; "event"])
  ∧ ∃ result,
      (_perform_check (post ∅ ∅ ∅) world_without_url).1 = Returned result
      ∧ status_of result = "error"
      ∧ found_keywords_of result = None
      ∧ found_keywords_of result ≠ Some [].
Proof.
  split; [reflexivity|]. eexists. split; [reflexivity|]. by repeat split.
Qed.

(** C5, as the code has it.  In a POST request the url of the check is the
    trimmed value of the form field [url] whenever the form has that field,
    empty or not, and the trimmed url of the loaded configuration otherwise;
    the keywords are the comma-separated pieces, trimmed and without the
    empty ones, of the form field [keywords] whenever the form has it, and of
    the loaded keywords joined with commas otherwise. *)
Theorem effective_of_post
    (request : request) (w : world) (config : dict)
    (stored_url : string) (stored_keywords : list string) :
  method request = "POST" →
  (load_config w).1 = Returned config →
  at_url config = Some stored_url →
  at_keywords config = Some stored_keywords →
  effective request w
  = Returned
      (Py.strip (default stored_url (form request !! "url")),
       stripped_keywords
         (default (Py.join "," stored_keywords) (form request !! "keywords"))).
Proof.
  intros Hpost Hload Hurl Hkeywords. rewrite effective_run.
  rewrite load_config_run, opened_emit in Hload. cbn [fst] in Hload.
  injection Hload as ->.
  unfold url_and_keywords. rewrite bool_decide_eq_true_2 by done.
  rewrite Hurl, Hkeywords. reflexivity.
Qed.

Lemma effective_of_post_demo :
  effective (post {["url" := " https://example.org "]} ∅ ∅) demo_world
  = Returned
      (Py.strip
         (default "https://example.com"
            (form (post {["url" := " https://example.org "]} ∅ ∅) !! "url")),
       stripped_keywords
         (default (Py.join "," ["sale"; "event"])
            (form (post {["url" := " https://example.org "]} ∅ ∅) !! "keywords"))).
Proof.
  apply (effective_of_post (post {["url" := " https://example.org "]} ∅ ∅)
           demo_world
           (Dict (Some "https://example.com") (Some ["sale"; "event"])
                 (Some "agent@example.org") (Some "app-password")
                 (Some "me@example.org"))
           "https://example.com" ["sale"; "event"]); reflexivity.
Defined.

(** C5 as the specification words it does not hold: an override that is
    supplied but empty does not fall back to the stored value.  With
    "https://example.com" and the keywords sale and event stored, an empty
    [url] field gives the empty url and an empty [keywords] field gives the
    empty keyword list. *)
Lemma empty_override_is_not_replaced :
  (load_config demo_world).1
  = Returned
      (Dict (Some "https://example.com") (Some ["sale"; "event"])
            (Some "agent@example.org") (Some "app-password")
            (Some "me@example.org"))
  ∧ effective (post {["url" := ""]} ∅ ∅) demo_world
    = Returned ("", ["sale"; "event"])
  ∧ effective (post {["keywords" := ""]} ∅ ∅) demo_world
    = Returned ("https://example.com", [])
  ∧ effective (post {["url" := ""]} ∅ ∅) demo_world
    ≠ Returned ("https://example.com", ["sale"; "event"]).
Proof. by repeat split. Qed.

(** ** The privileged trigger *)

Lemma check_run request w :
  check request w
  = if negb (truthy_opt (environ w !! "CHECK_TOKEN")) then
      (Returned (CheckResult "error" "CHECK_TOKEN not configured" None, 500%N),
       extend
         [Log ERROR "CHECK_TOKEN environment variable is required for API access"]
         w)
    else if negb (truthy_opt (provided_token request))
            || negb (bool_decide (provided_token request = environ w !! "CHECK_TOKEN"))
    then
      (Returned
         (CheckResult "error" "Unauthorized - invalid or missing token" None, 401%N),
       extend [Log WARNING "Unauthorized check attempt"] w)
    else
      match _perform_check request (extend [Log INFO "API check triggered"] w) with
      | (Returned result, w') => (Returned (result, 200%N), w')
      | (Raised e, w') => (Raised e, w')
      end.
Proof.
  unfold check, provided_token. run.
  destruct (negb (truthy_opt (environ w !! "CHECK_TOKEN"))); [done|].
  destruct (_ || _); [done|].
  rewrite emit_as_extend. by destruct (_perform_check _ _) as [[] ?].
Qed.

(** C8. When no token is configured on the server, [check] answers 500 and
    does not run the check; when the token of the caller is missing or is
    not the configured one, it answers 401 and does not run the check; when
    the two tokens are equal it answers with the result of [_perform_check];
    and [_perform_check] is entered only when they are equal. *)
Theorem check_is_guarded_by_the_token (request : request) (w : world) :
  (truthy_opt (environ w !! "CHECK_TOKEN") = false →
   check request w
   = (Returned (CheckResult "error" "CHECK_TOKEN not configured" None, 500%N),
      extend
        [Log ERROR "CHECK_TOKEN environment variable is required for API access"]
        w))
  ∧ (truthy_opt (environ w !! "CHECK_TOKEN") = true →
     truthy_opt (provided_token request) = false
     ∨ provided_token request ≠ environ w !! "CHECK_TOKEN" →
     check request w
     = (Returned
          (CheckResult "error" "Unauthorized - invalid or missing token" None,
           401%N),
        extend [Log WARNING "Unauthorized check attempt"] w))
  ∧ (truthy_opt (environ w !! "CHECK_TOKEN") = true →
     provided_token request = environ w !! "CHECK_TOKEN" →
     ∃ result w',
       _perform_check request (extend [Log INFO "API check triggered"] w)
       = (Returned result, w')
       ∧ check request w = (Returned (result, 200%N), w'))
  ∧ (In (Call of_perform_check) (since w (check request w).2) →
     truthy_opt (environ w !! "CHECK_TOKEN") = true
     ∧ provided_token request = environ w !! "CHECK_TOKEN").
Proof.
  split_and!.
  - intros Htoken. by rewrite check_run, Htoken.
  - intros Htoken Hbad. rewrite check_run, Htoken. cbn [negb].
    destruct Hbad as [->|Hne]; [done|].
    by rewrite (bool_decide_eq_false_2 _ Hne), orb_true_r.
  - intros Htoken Heq. rewrite check_run, Htoken, Heq, Htoken.
    rewrite bool_decide_eq_true_2 by done. cbn [negb orb].
    destruct (perform_check_paths request (extend [Log INFO "API check triggered"] w))
      as (res & w' & -> & _).
    by exists res, w'.
  - rewrite check_run.
    destruct (truthy_opt (environ w !! "CHECK_TOKEN")); cbn [negb].
    2: { cbn [snd]. rewrite (since_app _ _ [Log ERROR _]) by done.
         simpl. by intros [|]. }
    destruct (truthy_opt (provided_token request)); cbn [negb orb].
    2: { cbn [snd]. rewrite (since_app _ _ [Log WARNING _]) by done.
         simpl. by intros [|]. }
    case_bool_decide; cbn [negb]; [done|].
    cbn [snd]. rewrite (since_app _ _ [Log WARNING _]) by done.
    simpl. by intros [|].
Qed.

Lemma check_with_a_wrong_token :
  check (post ∅ {["X-Check-Token" := "guess"]} ∅) demo_world
  = (Returned
       (CheckResult "error" "Unauthorized - invalid or missing token" None, 401%N),
     extend [Log WARNING "Unauthorized check attempt"] demo_world).
Proof.
  apply (check_is_guarded_by_the_token
           (post ∅ {["X-Check-Token" := "guess"]} ∅) demo_world).
  - reflexivity.
  - right. discriminate.
Defined.

(** * Further properties of the code *)

(** ** Text helpers *)

Section PyFacts.

Lemma contains_in_empty s : Py.contains s "" = true ↔ s = "".
Proof. destruct s; simpl; by rewrite ?orb_false_r. Qed.

Lemma lower_char_idem c : Py.lower_char (Py.lower_char c) = Py.lower_char c.
Proof. by destruct c as [[] [] [] [] [] [] [] []]. Qed.

Lemma isspace_lower_char c : Py.isspace (Py.lower_char c) = Py.isspace c.
Proof. by destruct c as [[] [] [] [] [] [] [] []]. Qed.

Lemma lower_idem s : Py.lower (Py.lower s) = Py.lower s.
Proof. induction s as [|c s IH]; simpl; [done|]. by rewrite lower_char_idem, IH. Qed.


Lemma lstrip_lower s : Py.lstrip (Py.lower s) = Py.lower (Py.lstrip s).
Proof.
  induction s as [|c s IH]; simpl; [done|].
  rewrite isspace_lower_char. by destruct (Py.isspace c).
Qed.

Lemma rstrip_lower s : Py.rstrip (Py.lower s) = Py.lower (Py.rstrip s).
Proof.
  induction s as [|c s IH]; simpl; [done|].
  rewrite IH, isspace_lower_char.
  destruct (Py.rstrip s); simpl; [by destruct (Py.isspace c)|done].
Qed.

Lemma strip_lower s : Py.strip (Py.lower s) = Py.lower (Py.strip s).
Proof. unfold Py.strip. by rewrite lstrip_lower, rstrip_lower. Qed.

Lemma truthy_lower s : Py.truthy (Py.lower s) = Py.truthy s.
Proof. by destruct s. Qed.

End PyFacts.

Lemma append_nil_l (s : string) : "" +:+ s = s.
Proof. reflexivity. Qed.

Lemma append_cons (c : ascii) (s t : string) : String c s +:+ t = String c (s +:+ t).
Proof. reflexivity. Qed.

Lemma append_nil_r (s : string) : s +:+ "" = s.
Proof. induction s as [|x s IH]; [done|]. by rewrite append_cons, IH. Qed.

Lemma append_assoc (a b c : string) : (a +:+ b) +:+ c = a +:+ b +:+ c.
Proof. induction a as [|x a IH]; [done|]. by rewrite !append_cons, IH. Qed.

Lemma Substring_trans a b c : Substring a b → Substring b c → Substring a c.
Proof.
  intros (p1 & q1 & ->) (p2 & q2 & ->).
  exists (p2 +:+ p1), (q1 +:+ q2). by rewrite !append_assoc.
Qed.

(** X1. In an empty text no keyword is found, whatever the keyword list. *)
Theorem check_keywords_empty_text (K : list string) : check_keywords "" K = [].
Proof.
  induction K as [|k K IH]; [done|].
  rewrite check_keywords_cons, IH.
  destruct (Py.truthy (Py.strip k)) eqn:Ht; [|done].
  destruct (Py.contains _ _) eqn:Hc; [|done].
  apply contains_in_empty in Hc. rewrite <- truthy_lower, Hc in Ht. done.
Qed.

(** X2. The keywords are judged one by one: the result for two lists put
    end to end is the two results put end to end. *)
Theorem check_keywords_app (T : string) (K1 K2 : list string) :
  check_keywords T (K1 ++ K2) = check_keywords T K1 ++ check_keywords T K2.
Proof.
  induction K1 as [|k K1 IH]; [done|].
  simpl. by rewrite !check_keywords_cons, IH, app_assoc.
Qed.

(** X3. Matching ignores case: lowering the text changes nothing, and
    lowering the keywords gives the same matches, lowered. *)
Theorem check_keywords_ignores_case (T : string) (K : list string) :
  check_keywords (Py.lower T) K = check_keywords T K
  ∧ check_keywords T (Py.lower <$> K) = Py.lower <$> check_keywords T K.
Proof.
  split; induction K as [|k K IH]; try done.
  - by rewrite !check_keywords_cons, IH, lower_idem.
  - rewrite fmap_cons, !check_keywords_cons, IH, fmap_app.
    rewrite strip_lower, truthy_lower, lower_idem.
    by destruct (_ && _).
Qed.

(** X4. A text loses no match to a text whose lower-case form contains its
    own lower-case form: what is found in [T] is found, in the same order, in
    every such [T']. *)
Theorem check_keywords_more_text (T T' : string) (K : list string) :
  Substring (Py.lower T) (Py.lower T') →
  sublist (check_keywords T K) (check_keywords T' K).
Proof.
  intros Hsub. induction K as [|k K IH]; [done|].
  rewrite !check_keywords_cons.
  destruct (Py.truthy (Py.strip k)); simpl; [|done].
  destruct (Py.contains _ (Py.lower T)) eqn:Hc.
  - apply contains_spec in Hc.
    rewrite (proj2 (contains_spec _ _) (Substring_trans _ _ _ Hc Hsub)).
    by apply sublist_skip.
  - destruct (Py.contains _ (Py.lower T')); simpl; [by apply sublist_cons|done].
Qed.




Section Strip.

Lemma every_char_lstrip P s : every_char P s = true → every_char P (Py.lstrip s) = true.
Proof.
  induction s as [|c s IH]; [done|]. simpl.
  intros [Hc Hs]%andb_true_iff. destruct (Py.isspace c); [auto|].
  simpl. by rewrite Hc, Hs.
Qed.

Lemma every_char_rstrip P s : every_char P s = true → every_char P (Py.rstrip s) = true.
Proof.
  induction s as [|c s IH]; [done|]. simpl.
  intros [Hc Hs]%andb_true_iff. specialize (IH Hs).
  destruct (Py.rstrip s); [destruct (Py.isspace c)|]; simpl in *; by rewrite ?Hc, ?IH.
Qed.

Lemma every_char_strip P s : every_char P s = true → every_char P (Py.strip s) = true.
Proof. intros. by apply every_char_rstrip, every_char_lstrip. Qed.


Lemma lstrip_starts_clean s : starts_clean (Py.lstrip s).
Proof. induction s as [|c s IH]; [done|]. simpl. by destruct (Py.isspace c) eqn:E. Qed.

Lemma lstrip_id s : starts_clean s → Py.lstrip s = s.
Proof. destruct s; [done|]. simpl. by intros ->. Qed.

Lemma rstrip_starts_clean s : starts_clean s → starts_clean (Py.rstrip s).
Proof.
  destruct s as [|c s]; [done|]. simpl. intros Hc.
  destruct (Py.rstrip s); by rewrite ?Hc.
Qed.

Lemma rstrip_idem s : Py.rstrip (Py.rstrip s) = Py.rstrip s.
Proof.
  induction s as [|c s IH]; [done|]. simpl.
  destruct (Py.rstrip s) as [|d r] eqn:E.
  - destruct (Py.isspace c) eqn:Hc; [done|]. simpl. by rewrite Hc.
  - change (Py.rstrip (String c (String d r))) with
      (match Py.rstrip (String d r) with
       | EmptyString => if Py.isspace c then EmptyString else String c EmptyString
       | r' => String c r'
       end).
    by rewrite IH.
Qed.

Lemma strip_idem s : Py.strip (Py.strip s) = Py.strip s.
Proof.
  unfold Py.strip.
  rewrite (lstrip_id (Py.rstrip _)) by apply rstrip_starts_clean, lstrip_starts_clean.
  apply rstrip_idem.
Qed.

End Strip.

Section Split.

Lemma split_comma_nil : Py.split "," "" = [""].
Proof. reflexivity. Qed.

Lemma split_comma_cons c s :
  Py.split "," (String c s)
  = if bool_decide (c = ","%char) then "" :: Py.split "," s
    else Py.cons_head c (Py.split "," s).
Proof.
  unfold Py.split. simpl. rewrite andb_true_r.
  repeat case_bool_decide; congruence.
Qed.

Lemma split_comma_not_nil s : Py.split "," s ≠ [].
Proof.
  induction s as [|c s IH]; [done|]. rewrite split_comma_cons.
  case_bool_decide; [done|]. by destruct (Py.split "," s).
Qed.

Lemma split_comma_pieces s : Forall (λ k, every_char not_comma k = true) (Py.split "," s).
Proof.
  induction s as [|c s IH]; [by repeat constructor|].
  rewrite split_comma_cons. case_bool_decide as Hc; [by constructor|].
  destruct (Py.split "," s) as [|h t]; simpl.
  - repeat constructor. simpl. unfold not_comma. by rewrite bool_decide_eq_false_2.
  - inversion IH; subst. constructor; [|done]. simpl.
    unfold not_comma at 1. by rewrite bool_decide_eq_false_2.
Qed.

(** A comma-free piece followed by a comma comes back as the first piece. *)
Lemma split_comma_piece k rest :
  every_char not_comma k = true →
  Py.split "," (k +:+ "," +:+ rest) = k :: Py.split "," rest.
Proof.
  induction k as [|c k IH]; intros Hk.
  - rewrite append_nil_l, append_cons, split_comma_cons. by rewrite bool_decide_eq_true_2.
  - simpl in Hk. apply andb_true_iff in Hk as [Hc Hk].
    rewrite append_cons, split_comma_cons, (IH Hk).
    unfold not_comma in Hc. apply negb_true_iff, bool_decide_eq_false in Hc.
    by rewrite bool_decide_eq_false_2.
Qed.

Lemma split_comma_last k :
  every_char not_comma k = true → Py.split "," k = [k].
Proof.
  induction k as [|c k IH]; intros Hk; [done|].
  simpl in Hk. apply andb_true_iff in Hk as [Hc Hk].
  rewrite split_comma_cons, (IH Hk).
  unfold not_comma in Hc. apply negb_true_iff, bool_decide_eq_false in Hc.
  by rewrite bool_decide_eq_false_2.
Qed.

Lemma split_comma_join ks :
  ks ≠ [] → Forall (λ k, every_char not_comma k = true) ks →
  Py.split "," (Py.join "," ks) = ks.
Proof.
  intros Hne Hks. induction Hks as [|k ks Hk Hks IH]; [done|].
  destruct ks as [|k' ks].
  - by apply split_comma_last.
  - change (Py.join "," (k :: k' :: ks)) with (k +:+ "," +:+ Py.join "," (k' :: ks)).
    rewrite split_comma_piece by done. by rewrite IH.
Qed.

End Split.

Lemma stripped_keywords_unfold s :
  stripped_keywords s
  = Py.strip <$> filter (λ kw, Is_true (Py.truthy (Py.strip kw))) (Py.split "," s).
Proof. reflexivity. Qed.

Lemma stripped_keywords_clean (s : string) :
  Forall clean_keyword (stripped_keywords s).
Proof.
  rewrite stripped_keywords_unfold. apply Forall_fmap, Forall_forall.
  intros kw [Ht Hin]%list_elem_of_filter. simpl. split_and!.
  - intros E. by rewrite E in Ht.
  - apply strip_idem.
  - apply every_char_strip.
    by eapply (proj1 (Forall_forall _ _) (split_comma_pieces s)).
Qed.

Lemma stripped_keywords_of_clean ks :
  Forall clean_keyword ks → stripped_keywords (Py.join "," ks) = ks.
Proof.
  intros Hks. rewrite stripped_keywords_unfold.
  destruct (decide (ks = [])) as [->|Hne]; [done|].
  rewrite split_comma_join; [|done|by eapply Forall_impl; [done|intros ? (?&?&?)]].
  induction Hks as [|k ks (Hk & Hs & _) Hks IH]; [done|].
  rewrite filter_cons_True.
  2: { rewrite Hs. by destruct k. }
  rewrite fmap_cons, Hs. f_equal.
  destruct (decide (ks = [])) as [->|Hne']; [done|]. by apply IH.
Qed.

(** X5. Every keyword that the comprehension of lines 46, 153 and 204 yields
    is not empty, has no white space at either end and holds no comma. *)
Theorem stripped_keywords_are_clean (s : string) :
  Forall (λ k, k ≠ "" ∧ Py.strip k = k ∧ every_char not_comma k = true)
         (stripped_keywords s).
Proof. apply stripped_keywords_clean. Qed.

(** X6. Joining the keywords the comprehension yields with commas and
    running the comprehension on the result, as line 204 does with the
    stored keywords, gives the same keywords back. *)
Theorem stripped_keywords_round_trip (s : string) :
  stripped_keywords (Py.join "," (stripped_keywords s)) = stripped_keywords s.
Proof. apply stripped_keywords_of_clean, stripped_keywords_clean. Qed.


Section CleanUp.

Lemma Forall_cons_head (P : ascii → bool) c l :
  P c = true → Forall (λ k, every_char P k = true) l →
  Forall (λ k, every_char P k = true) (Py.cons_head c l).
Proof.
  intros Hc Hl. destruct Hl as [|h t Hh Ht]; simpl.
  - repeat constructor. simpl. by rewrite Hc.
  - constructor; [|done]. simpl. by rewrite Hc, Hh.
Qed.

Lemma every_char_split_from P sep skip s :
  every_char P s = true →
  Forall (λ k, every_char P k = true) (Py.split_from sep skip s).
Proof.
  revert skip. induction s as [|c s IH]; intros skip; [by repeat constructor|].
  cbn [Py.split_from every_char].
  intros [Hc Hs]%andb_true_iff. destruct skip; [|by apply IH].
  destruct (Py.startswith sep (String c s)).
  - constructor; [done|]. by apply IH.
  - apply Forall_cons_head; [done|]. by apply IH.
Qed.

Lemma splitlines_pieces_upto n s :
  String.length s ≤ n →
  Forall (λ k, every_char not_linebreak k = true) (Py.splitlines s).
Proof.
  revert s. induction n as [|n IH]; intros [|c s] Hlen; simpl in *;
    try by (constructor || lia).
  destruct (Py.islinebreak c) eqn:Hc.
  - destruct s as [|d s]; [by repeat constructor|].
    destruct (bool_decide _ && bool_decide _);
      (constructor; [done|]); apply IH; simpl in *; lia.
  - apply Forall_cons_head; [unfold not_linebreak; by rewrite Hc|].
    apply IH. lia.
Qed.

Lemma splitlines_pieces s :
  Forall (λ k, every_char not_linebreak k = true) (Py.splitlines s).
Proof. by apply (splitlines_pieces_upto (String.length s)). Qed.

Lemma every_char_app P s t :
  every_char P (s +:+ t) = every_char P s && every_char P t.
Proof.
  induction s as [|c s IH]; [done|].
  rewrite append_cons. simpl. by rewrite IH, andb_assoc.
Qed.

Lemma every_char_join P sep l :
  every_char P sep = true → Forall (λ k, every_char P k = true) l →
  every_char P (Py.join sep l) = true.
Proof.
  intros Hsep Hl. induction Hl as [|k l Hk Hl IH]; [done|].
  destruct l as [|k' l]; [done|].
  change (Py.join sep (k :: k' :: l)) with (k +:+ sep +:+ Py.join sep (k' :: l)).
  by rewrite !every_char_app, Hk, Hsep, IH.
Qed.

Lemma clean_up_unfold text :
  clean_up text
  = Py.join " "
      (filter (λ chunk, Is_true (Py.truthy chunk))
         (flat_map (λ line, Py.strip <$> Py.split "  " line)
            (Py.strip <$> Py.splitlines text))).
Proof. reflexivity. Qed.

Lemma clean_up_chunks P text :
  (∀ line, line ∈ Py.splitlines text → every_char P line = true) →
  Forall (λ k, every_char P k = true)
    (flat_map (λ line, Py.strip <$> Py.split "  " line)
       (Py.strip <$> Py.splitlines text)).
Proof.
  intros Hlines. apply Forall_forall. intros chunk Hin.
  apply list_elem_of_In, in_flat_map in Hin as (line & Hline & Hin).
  apply list_elem_of_In, list_elem_of_fmap in Hline as (line0 & -> & Hline0).
  apply list_elem_of_In, list_elem_of_fmap in Hin as (piece & -> & Hpiece).
  apply every_char_strip.
  assert (Forall (λ k, every_char P k = true) (Py.split "  " (Py.strip line0)))
    as Hall by (apply every_char_split_from, every_char_strip; by apply Hlines).
  by apply (proj1 (Forall_forall _ _) Hall).
Qed.

End CleanUp.

(** X7. The text [scrape_webpage] makes of a page (lines 84-86) is a single
    line: no line boundary is left in it. *)
Theorem clean_up_is_one_line (text : string) :
  every_char not_linebreak (clean_up text) = true.
Proof.
  rewrite clean_up_unfold. apply every_char_join; [done|].
  apply Forall_forall. intros chunk [_ Hin]%list_elem_of_filter.
  revert chunk Hin. apply Forall_forall, clean_up_chunks.
  apply Forall_forall, splitlines_pieces.
Qed.



Section Spaces.

Lemma contains_2sp_cons a s :
  Py.contains "  " (String a s)
  = bool_decide (a = " "%char) && starts_with_space s || Py.contains "  " s.
Proof.
  cbn [Py.contains]. f_equal. cbn [Py.startswith].
  destruct s as [|b s]; simpl.
  - by rewrite !andb_false_r.
  - rewrite andb_true_r. by repeat case_bool_decide; simplify_eq.
Qed.

Lemma split2_0 c s :
  Py.split_from "  " 0 (String c s)
  = if bool_decide (c = " "%char) && starts_with_space s
    then "" :: Py.split_from "  " 1 s
    else Py.cons_head c (Py.split_from "  " 0 s).
Proof.
  cbn [Py.split_from]. 
  replace (Py.startswith "  " (String c s))
    with (bool_decide (c = " "%char) && starts_with_space s); [done|].
  cbn [Py.startswith]. destruct s as [|b s]; simpl.
  - by rewrite !andb_false_r.
  - rewrite andb_true_r. by repeat case_bool_decide; simplify_eq.
Qed.

Lemma split2_1 c s : Py.split_from "  " 1 (String c s) = Py.split_from "  " 0 s.
Proof. reflexivity. Qed.

Lemma split2_head s :
  starts_with_space (default "" (head (Py.split_from "  " 0 s))) = true →
  starts_with_space s = true.
Proof.
  destruct s as [|c s]; [done|]. rewrite split2_0.
  destruct (bool_decide (c = " "%char) && starts_with_space s); [done|].
  by destruct (Py.split_from "  " 0 s).
Qed.

Lemma split2_pieces s :
  Forall (λ p, Py.contains "  " p = false) (Py.split_from "  " 0 s)
  ∧ Forall (λ p, Py.contains "  " p = false) (Py.split_from "  " 1 s).
Proof.
  induction s as [|c s [IH0 IH1]]; [by repeat constructor|].
  split; [|by rewrite split2_1].
  rewrite split2_0.
  destruct (bool_decide (c = " "%char) && starts_with_space s) eqn:E;
    [by constructor|].
  pose proof (split2_head s) as Hhead.
  destruct (Py.split_from "  " 0 s) as [|h t]; simpl in *.
  - repeat constructor. rewrite contains_2sp_cons. simpl. by rewrite andb_false_r.
  - inversion IH0 as [|?? Hh Ht]; subst. constructor; [|done].
    rewrite contains_2sp_cons, Hh, orb_false_r.
    destruct (starts_with_space h) eqn:Hs; [|by rewrite andb_false_r].
    by rewrite Hhead in E.
Qed.

Lemma lstrip_suffix s : ∃ pre, s = pre +:+ Py.lstrip s.
Proof.
  induction s as [|c s [pre IH]]; [by exists ""|]. simpl.
  destruct (Py.isspace c); [|by exists ""].
  exists (String c pre). by rewrite append_cons, <- IH.
Qed.

Lemma rstrip_prefix s : ∃ post, s = Py.rstrip s +:+ post.
Proof.
  induction s as [|c s [post IH]]; [by exists ""|]. simpl.
  destruct (Py.rstrip s) as [|d r] eqn:E.
  - destruct (Py.isspace c).
    + by exists (String c s).
    + exists post. by rewrite append_cons, <- IH.
  - exists post. by rewrite append_cons, <- IH.
Qed.

Lemma Substring_strip s : Substring (Py.strip s) s.
Proof.
  destruct (lstrip_suffix s) as [pre Hpre].
  destruct (rstrip_prefix (Py.lstrip s)) as [post Hpost].
  exists pre, post. unfold Py.strip. by rewrite <- Hpost.
Qed.

Lemma contains_strip sub s :
  Py.contains sub s = false → Py.contains sub (Py.strip s) = false.
Proof.
  intros Hs. destruct (Py.contains sub (Py.strip s)) eqn:E; [|done].
  apply contains_spec in E.
  pose proof (Substring_trans _ _ _ E (Substring_strip s)) as H.
  apply contains_spec in H. congruence.
Qed.

Lemma rstrip_app p r :
  r ≠ "" → Py.rstrip r = r → Py.rstrip (p +:+ r) = p +:+ r.
Proof.
  intros Hne Hr. induction p as [|c p IH]; [done|].
  rewrite append_cons. cbn [Py.rstrip]. rewrite IH.
  destruct (p +:+ r) eqn:E; [|done].
  destruct p; [by rewrite append_nil_l in E|by rewrite append_cons in E].
Qed.

Lemma starts_clean_no_space s :
  s ≠ "" → starts_clean s → starts_with_space s = false.
Proof.
  destruct s as [|c s]; [done|]. simpl. intros _ Hc.
  case_bool_decide; [by subst|done].
Qed.

Lemma no_double_space_join x r :
  x ≠ "" → Py.rstrip x = x → Py.contains "  " x = false →
  starts_with_space r = false → Py.contains "  " r = false →
  Py.contains "  " (x +:+ " " +:+ r) = false.
Proof.
  intros Hne Hx Hc Hr Hcr. induction x as [|a x IH]; [done|].
  rewrite append_cons, contains_2sp_cons.
  rewrite contains_2sp_cons in Hc. apply orb_false_iff in Hc as [Ha Hc].
  cbn [Py.rstrip] in Hx.
  destruct x as [|b x].
  - rewrite append_nil_l, append_cons, append_nil_l.
    rewrite contains_2sp_cons, Hr, Hcr. simpl in Hx.
    destruct (Py.isspace a) eqn:Hsp; [done|].
    case_bool_decide; [by subst|done].
  - destruct (Py.rstrip (String b x)) eqn:E; [by destruct (Py.isspace a)|].
    injection Hx as -> ->. rewrite IH; [|done..].
    rewrite append_cons. simpl in *. by rewrite Ha.
Qed.

Lemma tidy_join l : l ≠ [] → Forall tidy l → tidy (Py.join " " l).
Proof.
  intros Hne Hl. induction Hl as [|x l Hx Hl IH]; [done|].
  destruct l as [|y l]; [done|].
  change (Py.join " " (x :: y :: l)) with (x +:+ " " +:+ Py.join " " (y :: l)).
  destruct IH as (Hr1 & Hr2 & Hr3 & Hr4); [done|].
  destruct Hx as (Hx1 & Hx2 & Hx3 & Hx4).
  split_and!.
  - by destruct x.
  - by destruct x.
  - apply rstrip_app; [by destruct x|].
    apply (rstrip_app " "); done.
  - apply no_double_space_join; try done.
    by apply starts_clean_no_space.
Qed.

Lemma tidy_strip s : Py.contains "  " s = false → Py.strip s ≠ "" → tidy (Py.strip s).
Proof.
  intros Hc Hne. split_and!; [done| | |by apply contains_strip].
  - apply rstrip_starts_clean, lstrip_starts_clean.
  - apply rstrip_idem.
Qed.

Lemma tidy_trimmed s : tidy s → Py.strip s = s.
Proof.
  intros (_ & Hs & Hr & _). unfold Py.strip. by rewrite lstrip_id.
Qed.

End Spaces.

(** X8. The text [scrape_webpage] makes of a page (lines 84-86) never has
    two spaces in a row, and no white space at its beginning or end. *)
Theorem clean_up_collapses_spaces (text : string) :
  Py.contains "  " (clean_up text) = false
  ∧ Py.strip (clean_up text) = clean_up text.
Proof.
  rewrite clean_up_unfold.
  set (chunks := filter _ _).
  assert (Forall tidy chunks) as Htidy.
  { apply Forall_forall. intros chunk [Ht Hin]%list_elem_of_filter.
    apply list_elem_of_In, in_flat_map in Hin as (line & _ & Hin).
    apply list_elem_of_In, list_elem_of_fmap in Hin as (piece & -> & Hpiece).
    apply tidy_strip; [|intros E; by rewrite E in Ht].
    by apply (proj1 (Forall_forall _ _) (proj1 (split2_pieces line))). }
  destruct (decide (chunks = [])) as [->|Hne]; [done|].
  pose proof (tidy_join chunks Hne Htidy) as Hjoin.
  split; [apply Hjoin | by apply tidy_trimmed].
Qed.

(** ** The orchestrator, the endpoints and the stores *)

Lemma perform_check_cases request w :
  let s := default "" (environ w !! "SENDER_EMAIL") in
  let p := default "" (environ w !! "SENDER_EMAIL_PASSWORD") in
  let r := default "" (environ w !! "RECEIVER_EMAIL") in
  ∃ res evs,
    _perform_check request w
    = (Returned res,
       extend evs
         (opened (emit (Call of_load_config) (emit (Call of_perform_check) w))).2)
    ∧ match effective request w with
      | Raised e =>
          res = CheckResult "error" ("Error during check: " +:+ e) None
          ∧ calls evs = []
      | Returned (url, keywords) =>
          if negb (Py.truthy url) then
            res = CheckResult "error" "No URL configured" None ∧ calls evs = []
          else if negb (truthy_list keywords) then
            res = CheckResult "error" "No keywords configured" None ∧ calls evs = []
          else if negb (Py.truthy s && Py.truthy p && Py.truthy r) then
            res = CheckResult "error"
                    "Email configuration incomplete - check your secrets" None
            ∧ calls evs = []
          else fetched w url keywords s p r res (calls evs)
      end.
Proof.
  intros s p r. rewrite perform_check_run, effective_run. cbv zeta.
  rewrite !opened_emit.
  destruct (opened_for_check w) as (Hg & Hr & _).
  revert Hg Hr. set (w1 := (opened _).2). intros Hg Hr.
  set (config := merged (environ w) (opened w).1).
  rewrite (url_and_keywords_pure request config w1).
  rewrite (url_and_keywords_any_world request config w1 w).
  destruct (url_and_keywords request config w).1 as [[url keywords]|e].
  2: { eexists _, _. rewrite emit_as_extend. by split. }
  unfold validate_and_run.
  destruct (negb (Py.truthy url)).
  { eexists _, _. run. rewrite emit_as_extend. by split. }
  destruct (negb (truthy_list keywords)).
  { eexists _, _. run. rewrite emit_as_extend. by split. }
  run. cbn [config merged at_sender_email at_sender_password at_receiver_email].
  fold s p r.
  destruct (negb (Py.truthy s && Py.truthy p && Py.truthy r)).
  { eexists _, _. rewrite emit_as_extend. by split. }
  destruct (fetch_and_match_run config url keywords s p r w1 (merged_secrets _ _))
    as (res & evs & -> & H).
  exists res, evs. split; [done|]. eapply fetched_frame; [done..| |done].
  subst w1. by rewrite opened_as_string.
Qed.

Lemma after_load_facts w :
  let w1 := (opened (emit (Call of_load_config) (emit (Call of_perform_check) w))).2 in
  environ w1 = environ w
  ∧ config_json w1 = Some (default default_config (config_json w)).
Proof. unfold opened. simpl. by destruct (config_json w) eqn:E. Qed.

Lemma accepted_or_not w s p r subj body :
  accepted w s p r subj body ∨ ¬ accepted w s p r subj body.
Proof.
  unfold accepted.
  destruct (relay w (SMTP _ _)) as [[]|]; [|right; by intros (?&?)].
  destruct (relay w starttls) as [[]|]; [|right; by intros (?&?&?)].
  destruct (relay w (login _ _)) as [[]|]; [|right; by intros (?&?&?&?)].
  destruct (as_string w (Message s r subj body)) as [text|];
    [|right; by intros (?&?&?&(?&?&?)&?)].
  destruct (relay w (sendmail s r text)) as [[]|] eqn:E;
    [|right; intros (?&?&?&(?&?&?)&?); congruence].
  destruct (relay w quit) as [[]|]; [|right; by intros (?&?&?&?&?)].
  left. split_and!; try done. by exists text.
Qed.

Lemma since_after_load evs w :
  ∃ pre,
    since w (extend evs
               (opened (emit (Call of_load_config) (emit (Call of_perform_check) w))).2)
    = pre ++ evs
    ∧ calls pre = prologue w.
Proof.
  destruct (opened_for_check w) as (_ & _ & pre & Ht & Hpre).
  exists pre. split; [|done]. by apply since_extend_after.
Qed.

Lemma fetched_result_shape w url keywords s p r res cs :
  fetched w url keywords s p r res cs →
  (∃ msg, res = CheckResult "error" msg None)
  ∨ (∃ st msg found,
       res = CheckResult st msg (Some found)
       ∧ (st = "success" ∨ st = "warning" ∨ st = "info")).
Proof.
  intros [e H|raw H H0|raw subj body res' H H0 Hok Hko].
  - left. eauto.
  - right. eexists _, _, _. split; [done|]. tauto.
  - right. destruct (accepted_or_not w s p r subj body) as [Ha|Ha].
    + rewrite (Hok Ha). eexists _, _, _. split; [done|]. tauto.
    + rewrite (Hko Ha). eexists _, _, _. split; [done|]. tauto.
Qed.

Lemma perform_check_result_shape request w :
  ∃ res w',
    _perform_check request w = (Returned res, w')
    ∧ environ w' = environ w
    ∧ config_json w' = Some (default default_config (config_json w))
    ∧ ((∃ msg, res = CheckResult "error" msg None)
       ∨ (∃ st msg found,
            res = CheckResult st msg (Some found)
            ∧ (st = "success" ∨ st = "warning" ∨ st = "info"))).
Proof.
  destruct (perform_check_cases request w) as (res & evs & -> & H).
  destruct (after_load_facts w) as [He Hc].
  eexists _, _. split; [reflexivity|].
  cbn [extend environ config_json]. split; [done|]. split; [done|].
  destruct (effective request w) as [[url keywords]|e].
  2: { left. destruct H as [-> _]. eauto. }
  destruct (negb (Py.truthy url)). { left. destruct H as [-> _]. eauto. }
  destruct (negb (truthy_list keywords)). { left. destruct H as [-> _]. eauto. }
  destruct (negb _). { left. destruct H as [-> _]. eauto. }
  by eapply fetched_result_shape.
Qed.

(** X14. [_perform_check] always returns a result, never an exception; its
    status is one of success, warning, info and error, and the result lacks
    the [found_keywords] field exactly when the status is error. *)
Theorem perform_check_always_answers (request : request) (w : world) :
  ∃ result w',
    _perform_check request w = (Returned result, w')
    ∧ In (status_of result) ["success"; "warning"; "info"; "error"]
    ∧ (found_keywords_of result = None ↔ status_of result = "error").
Proof.
  destruct (perform_check_result_shape request w)
    as (res & w' & E & _ & _ & [(msg & ->)|(st & msg & found & -> & Hst)]);
    eexists _, w'; (split; [exact E|]); simpl.
  - split; [auto 10|done].
  - split; [destruct Hst as [-> | [-> | ->]]; simpl; auto 10|].
    split; [done|]. by intros ->; destruct Hst as [|[|]].
Qed.

(** X15. A check never changes the environment nor an existing
    configuration file, whatever overrides the form carries; when there is no
    file, it leaves the default document with an empty url and no keyword. *)
Theorem perform_check_keeps_the_configuration (request : request) (w : world) :
  environ (_perform_check request w).2 = environ w
  ∧ config_json (_perform_check request w).2
    = Some (default default_config (config_json w)).
Proof.
  destruct (perform_check_result_shape request w) as (res & w' & -> & He & Hc & _).
  done.
Qed.

Lemma calls_since_check request w res evs :
  _perform_check request w
  = (Returned res,
     extend evs
       (opened (emit (Call of_load_config) (emit (Call of_perform_check) w))).2) →
  calls (since w (_perform_check request w).2) = prologue w ++ calls evs.
Proof.
  intros ->. cbn [snd]. destruct (since_after_load evs w) as (pre & -> & <-).
  apply calls_app.
Qed.

(** X16. When the url, the keyword list or one of the three mail settings
    is empty, the check ends with an error before anything is fetched or
    sent; the message is that of the first failing test, in the order url,
    keywords, mail settings. *)
Theorem incomplete_configuration_stops_the_check
    (request : request) (w : world) (url : string) (keywords : list string) :
  effective request w = Returned (url, keywords) →
  Py.truthy url && truthy_list keywords
  && (Py.truthy (default "" (environ w !! "SENDER_EMAIL"))
      && Py.truthy (default "" (environ w !! "SENDER_EMAIL_PASSWORD"))
      && Py.truthy (default "" (environ w !! "RECEIVER_EMAIL"))) = false →
  (_perform_check request w).1
  = Returned
      (CheckResult "error"
         (if negb (Py.truthy url) then "No URL configured"
          else if negb (truthy_list keywords) then "No keywords configured"
          else "Email configuration incomplete - check your secrets")
         None)
  ∧ calls (since w (_perform_check request w).2) = prologue w.
Proof.
  intros Heff Hbad.
  destruct (perform_check_cases request w) as (res & evs & E & H).
  rewrite (calls_since_check _ _ _ _ E), E. cbn [fst].
  rewrite Heff in H.
  destruct (Py.truthy url); cbn [negb andb] in *;
    [|destruct H as [-> ->]; by rewrite app_nil_r].
  destruct (truthy_list keywords); cbn [negb andb] in *;
    [|destruct H as [-> ->]; by rewrite app_nil_r].
  rewrite Hbad in H. cbn [negb] in H. destruct H as [-> ->]. by rewrite app_nil_r.
Qed.

(** X17. When [check_keywords] finds nothing, the result is the info result
    with an empty [found_keywords], and [send_email] is not called. *)
Theorem no_match_sends_nothing
    (request : request) (w : world) (text : string) (keywords : list string) :
  In (Call (of_check_keywords text keywords)) (since w (_perform_check request w).2) →
  check_keywords text keywords = [] →
  (_perform_check request w).1
  = Returned (CheckResult "info" "No keywords found on the webpage" (Some []))
  ∧ ∀ s p r subj body,
      ¬ In (Call (of_send_email s p r subj body))
           (since w (_perform_check request w).2).
Proof.
  destruct (perform_check_paths request w) as (res & w' & -> & Hpath).
  cbn [fst snd]. rewrite In_calls. intros Hin Hnone.
  assert (∀ f, In (Call f) (since w w') → In f (calls (since w w'))) as Hcalls
    by (intros f; apply In_calls).
  remember (calls (since w w')) as cs' eqn:Hcs. clear Hcs.
  destruct Hpath as [msg|url ks s p r res cs Hf].
  { apply prologue_only in Hin. by destruct Hin as [|[|]]. }
  apply in_app_or in Hin as [Hin|Hin].
  { apply prologue_only in Hin. by destruct Hin as [|[|]]. }
  destruct Hf as [e H|raw H H0|raw subj body res H H0 Hok Hko]; simpl in Hin.
  - by destruct Hin as [|[]].
  - split; [done|]. intros * Hc%Hcalls. apply in_app_or in Hc as [Hc|Hc].
    + apply prologue_only in Hc. by destruct Hc as [|[|]].
    + simpl in Hc. by destruct Hc as [|[|[]]].
  - destruct Hin as [|[Hin|[|[]]]]; [done| |done]. by simplify_eq.
Qed.

(** X18. What one check calls: [load_config] (with its [save_config] when
    the file is missing), then at most one [scrape_webpage], on the effective
    url; [check_keywords] only after a fetch that returned, on the cleaned text
    of the page and the effective keywords; and at most one [send_email],
    only after that, with the sender, password and receiver of the
    environment. *)
Theorem perform_check_calls (request : request) (w : world) :
  let s := default "" (environ w !! "SENDER_EMAIL") in
  let p := default "" (environ w !! "SENDER_EMAIL_PASSWORD") in
  let r := default "" (environ w !! "RECEIVER_EMAIL") in
  calls (since w (_perform_check request w).2) = prologue w
  ∨ ∃ url keywords,
      effective request w = Returned (url, keywords)
      ∧ ((∃ e, get_text w url = Raised e
               ∧ calls (since w (_perform_check request w).2)
                 = prologue w ++ [of_scrape_webpage url])
         ∨ (∃ raw, get_text w url = Returned raw
               ∧ (calls (since w (_perform_check request w).2)
                  = prologue w
                    ++ [of_scrape_webpage url;
                        of_check_keywords (clean_up raw) keywords]
                  ∨ ∃ subj body,
                      calls (since w (_perform_check request w).2)
                      = prologue w
                        ++ [of_scrape_webpage url;
                            of_check_keywords (clean_up raw) keywords;
                            of_send_email s p r subj body]))).
Proof.
  intros s p r.
  destruct (perform_check_cases request w) as (res & evs & E & H).
  rewrite (calls_since_check _ _ _ _ E).
  destruct (effective request w) as [[url keywords]|e].
  2: { left. destruct H as [_ ->]. by rewrite app_nil_r. }
  destruct (negb (Py.truthy url)).
  { left. destruct H as [_ ->]. by rewrite app_nil_r. }
  destruct (negb (truthy_list keywords)).
  { left. destruct H as [_ ->]. by rewrite app_nil_r. }
  destruct (negb _).
  { left. destruct H as [_ ->]. by rewrite app_nil_r. }
  right. exists url, keywords. split; [done|]. fold s p r in H.
  destruct H as [e H|raw H H0|raw subj body res' H H0 Hok Hko]; eauto 10.
Qed.

(** X19. When the stored document has no [keywords] key and
    [DEFAULT_KEYWORDS] is unset or empty, [load_config] returns a dict
    without that key: every check, even one whose form supplies keywords,
    ends with the error "Error during check: 'keywords'", and [status] raises
    the [KeyError]. *)
Theorem missing_keywords_key_is_a_key_error
    (request : request) (w : world) (stored : dict) :
  config_json w = Some stored →
  at_keywords stored = None →
  Py.truthy (default "" (environ w !! "DEFAULT_KEYWORDS")) = false →
  (_perform_check request w).1
  = Returned (CheckResult "error" "Error during check: 'keywords'" None)
  ∧ (status w).1 = Raised "'keywords'".
Proof.
  intros Hfile Hkeys Henv. split.
  - destruct (perform_check_cases request w) as (res & evs & -> & H).
    cbn [fst]. rewrite effective_run in H.
    unfold opened, merged, url_and_keywords in H. rewrite Hfile in H.
    cbn [fst at_keywords at_url] in H. rewrite Hkeys, Henv, andb_false_r in H.
    run. by case_bool_decide; destruct H as [-> _].
  - rewrite status_run. unfold opened, merged. cbn [config_json emit fst].
    rewrite Hfile. cbn [fst at_keywords]. by rewrite Hkeys, Henv, andb_false_r.
Qed.

Lemma bad_referer_spec host request :
  bad_referer host request = false
  ↔ ∃ referer,
      headers request !! "Referer" = Some referer
      ∧ referer ≠ "" ∧ Substring host referer.
Proof.
  unfold bad_referer. rewrite orb_false_iff, !negb_false_iff.
  rewrite truthy_spec, contains_spec. split.
  - intros [Hne Hsub]. destruct (headers request !! "Referer") as [referer|]; [|done].
    by exists referer.
  - intros (referer & -> & Hne & Hsub). done.
Qed.

(** X20. [check_ui] accepts a request exactly when it has a non-empty
    [Referer] header in which the host occurs somewhere; otherwise it answers
    400 "Invalid request" and does not run the check; when it accepts, it
    answers 200 with the result of [_perform_check]. *)
Theorem check_ui_is_guarded_by_the_referer
    (host : string) (request : request) (w : world) :
  (bad_referer host request = false
   ↔ ∃ referer,
       headers request !! "Referer" = Some referer
       ∧ referer ≠ "" ∧ Substring host referer)
  ∧ (bad_referer host request = true →
     check_ui host request w
     = (Returned (CheckResult "error" "Invalid request" None, 400%N),
        extend [Log WARNING "Invalid referer for UI check"] w))
  ∧ (bad_referer host request = false →
     ∃ result w',
       _perform_check request (extend [Log INFO "UI check triggered"] w)
       = (Returned result, w')
       ∧ check_ui host request w = (Returned (result, 200%N), w')).
Proof.
  split; [apply bad_referer_spec|]. unfold check_ui. split; intros ->.
  - done.
  - run. rewrite emit_as_extend.
    destruct (perform_check_paths request (extend [Log INFO "UI check triggered"] w))
      as (res & w' & -> & _).
    by exists res, w'.
Qed.

Lemma update_config_run host request w :
  update_config host request w
  = if bad_referer host request then
      (Returned (Redirect ("Invalid request", "error") "index"),
       extend [Log WARNING "Invalid referer for config update"] w)
    else
      (Returned (Redirect ("Configuration updated successfully!", "success") "index"),
       set_config_json
         (Dict (Some (Py.strip (default "" (form request !! "url"))))
               (Some (stripped_keywords (default "" (form request !! "keywords"))))
               None None None)
         (emit
            (Call (of_save_config
                     (Dict (Some (Py.strip (default "" (form request !! "url"))))
                           (Some (stripped_keywords
                                    (default "" (form request !! "keywords"))))
                           (Some (default "" (environ w !! "SENDER_EMAIL")))
                           (Some (default "" (environ w !! "SENDER_EMAIL_PASSWORD")))
                           (Some (default "" (environ w !! "RECEIVER_EMAIL"))))))
            (opened (emit (Call of_load_config) w)).2)).
Proof.
  unfold update_config. destruct (bad_referer host request); [done|].
  unfold mbind at 1. unfold M_bind, try_except. unfold mbind at 1. unfold M_bind.
  rewrite load_config_run. unfold mbind, M_bind. rewrite save_config_run.
  unfold mret, M_ret. reflexivity.
Qed.

(** X21. [update_config] refuses a request with a bad referer and then
    writes nothing; it always answers with a redirect to the index page and
    one of its three flash messages; and whenever it answers with the success
    message, the referer was good and it has replaced the stored document by
    the trimmed [url] field and the split, trimmed and non-empty pieces of the
    [keywords] field of the form (a missing field counts as empty), without
    any secret, and has left the environment as it is. *)
Theorem update_config_stores_the_form
    (host : string) (request : request) (w : world) :
  (bad_referer host request = true →
   update_config host request w
   = (Returned (Redirect ("Invalid request", "error") "index"),
      extend [Log WARNING "Invalid referer for config update"] w))
  ∧ (∃ flash,
       (update_config host request w).1 = Returned (Redirect flash "index")
       ∧ In flash [("Invalid request", "error");
                   ("Configuration updated successfully!", "success");
                   ("Error updating configuration", "error")])
  ∧ ((update_config host request w).1
     = Returned (Redirect ("Configuration updated successfully!", "success") "index") →
     bad_referer host request = false
     ∧ config_json (update_config host request w).2
       = Some (Dict (Some (Py.strip (default "" (form request !! "url"))))
                    (Some (stripped_keywords
                             (default "" (form request !! "keywords"))))
                    None None None)
     ∧ environ (update_config host request w).2 = environ w).
Proof.
  rewrite update_config_run.
  destruct (bad_referer host request); cbn [fst snd]; split_and!; try done.
  - eexists. split; [reflexivity|]. simpl. auto.
  - eexists. split; [reflexivity|]. simpl. auto.
  - intros _. cbn [set_config_json config_json environ emit].
    by rewrite environ_opened.
Qed.

Lemma since_extend evs w : since w (extend evs w) = evs.
Proof. by apply since_app. Qed.

(** X10. Loading twice gives the same configuration as loading once, and
    the second load leaves the file as the first one left it: an existing
    file is never rewritten by [load_config], and a missing one is created
    with an empty url and no keyword, whatever the environment defaults. *)
Theorem load_config_twice (w : world) :
  (load_config (load_config w).2).1 = (load_config w).1
  ∧ config_json (load_config (load_config w).2).2 = config_json (load_config w).2
  ∧ config_json (load_config w).2 = Some (default default_config (config_json w)).
Proof.
  rewrite !load_config_run. cbn [fst snd].
  rewrite !opened_emit, environ_opened.
  unfold opened. cbn [config_json emit environ].
  destruct (config_json w) as [stored|] eqn:E; cbn [fst snd config_json emit set_config_json];
    by rewrite ?E.
Qed.

(** X11. A stored url or keyword list that is not empty is what
    [load_config] returns, whatever the environment; an absent or empty one
    is replaced by [DEFAULT_URL], respectively by the pieces of a non-empty
    [DEFAULT_KEYWORDS]. *)
Theorem load_config_precedence (w : world) (stored : dict) :
  config_json w = Some stored →
  ∃ loaded,
    (load_config w).1 = Returned loaded
    ∧ (∀ u, at_url stored = Some u → u ≠ "" → at_url loaded = Some u)
    ∧ (at_url stored = None ∨ at_url stored = Some "" →
       at_url loaded = Some (default "" (environ w !! "DEFAULT_URL")))
    ∧ (∀ ks, at_keywords stored = Some ks → ks ≠ [] → at_keywords loaded = Some ks)
    ∧ (at_keywords stored = None ∨ at_keywords stored = Some [] →
       ∀ d, environ w !! "DEFAULT_KEYWORDS" = Some d → d ≠ "" →
            at_keywords loaded = Some (stripped_keywords d)).
Proof.
  intros Hfile. eexists. rewrite load_config_run. split; [reflexivity|].
  unfold opened, merged. cbn [config_json emit]. rewrite Hfile. cbn [fst].
  cbn [at_url at_keywords]. split_and!.
  - intros u -> Hu. by destruct u.
  - by intros [-> | ->].
  - intros ks -> Hks. by destruct ks.
  - intros Hnone d -> Hd. destruct d; [done|]. by destruct Hnone as [-> | ->].
Qed.

(** X9. [scrape_webpage] always returns: [None], with the cause logged as
    an error, when the fetch raises, and the cleaned text of the page
    otherwise; it changes neither the configuration file nor the
    environment. *)
Theorem scrape_webpage_never_raises (url : string) (w : world) :
  ∃ text w',
    scrape_webpage url w = (Returned text, w')
    ∧ (∀ e, get_text w url = Raised e →
            text = None
            ∧ In (Log ERROR ("Error scraping webpage " +:+ url +:+ ": " +:+ e))
                 (since w w'))
    ∧ (∀ raw, get_text w url = Returned raw → text = Some (clean_up raw))
    ∧ config_json w' = config_json w
    ∧ environ w' = environ w.
Proof.
  rewrite scrape_webpage_run.
  destruct (get_text w url) as [raw|e]; eexists _, _; (split; [reflexivity|]);
    split_and!; try done.
  - intros raw' [= <-]. done.
  - intros e' [= <-]. split; [done|].
    rewrite since_extend. simpl. auto.
Qed.

(** X12. When connecting, STARTTLS or the login raises, [send_email]
    returns [False] and no [sendmail] command is issued. *)
Theorem send_email_stops_at_the_first_failure
    (s p r subj body : string) (w : world) (e : string) :
  relay w (SMTP "smtp.gmail.com" 587) = Raised e
  ∨ relay w starttls = Raised e
  ∨ relay w (login s p) = Raised e →
  (send_email s p r subj body w).1 = Returned false
  ∧ ∀ from_addr to_addrs msg,
      ¬ In (Smtp (sendmail from_addr to_addrs msg))
           (since w (send_email s p r subj body w).2).
Proof.
  intros Hfail. unfold send_email. run. cbn [relay emit].
  destruct (relay w (SMTP _ _)) as [[]|e1] eqn:E1; cbn [relay emit fst snd].
  2: { split; [done|]. intros *. to_extend w.
       rewrite since_extend. simpl. intuition discriminate. }
  destruct (relay w starttls) as [[]|e2] eqn:E2; cbn [relay emit fst snd].
  2: { split; [done|]. intros *. to_extend w.
       rewrite since_extend. simpl. intuition discriminate. }
  destruct (relay w (login _ _)) as [[]|e3] eqn:E3; cbn [relay emit fst snd].
  2: { split; [done|]. intros *. to_extend w.
       rewrite since_extend. simpl. intuition discriminate. }
  by destruct Hfail as [|[|]].
Qed.

(** X13. When every step up to [sendmail] goes through (the message has a
    text and the relay takes it) and [quit] raises, [send_email] returns
    [False] although the text of the message was handed to the relay; the
    cause is logged. *)
Theorem send_email_false_after_delivery
    (s p r subj body : string) (w : world) (text e : string) :
  relay w (SMTP "smtp.gmail.com" 587) = Returned () →
  relay w starttls = Returned () →
  relay w (login s p) = Returned () →
  as_string w (Message s r subj body) = Returned text →
  relay w (sendmail s r text) = Returned () →
  relay w quit = Raised e →
  (send_email s p r subj body w).1 = Returned false
  ∧ In (Smtp (sendmail s r text))
       (since w (send_email s p r subj body w).2)
  ∧ In (Log ERROR ("Error sending email: " +:+ e))
       (since w (send_email s p r subj body w).2).
Proof.
  intros H1 H2 H3 Htext H4 H5. unfold send_email. run. unfold msg_as_string.
  cbn [relay as_string emit].
  rewrite H1. cbn [relay as_string emit]. rewrite H2. cbn [relay as_string emit].
  rewrite H3. cbn [relay as_string emit]. rewrite Htext. cbn [relay as_string emit].
  rewrite H4. cbn [relay as_string emit].
  rewrite H5. cbn [fst snd]. split; [done|]. to_extend w.
  rewrite since_extend. simpl. auto 10.
Qed.

(** X25. When the text of the message cannot be made ([msg.as_string()]
    raises, as it does for a header value with an embedded header),
    [send_email] returns [False] after the login, logs the cause, and issues
    neither [sendmail] nor [quit]. *)
Theorem send_email_gives_up_on_a_bad_message
    (s p r subj body : string) (w : world) (e : string) :
  relay w (SMTP "smtp.gmail.com" 587) = Returned () →
  relay w starttls = Returned () →
  relay w (login s p) = Returned () →
  as_string w (Message s r subj body) = Raised e →
  (send_email s p r subj body w).1 = Returned false
  ∧ In (Smtp (login s p)) (since w (send_email s p r subj body w).2)
  ∧ In (Log ERROR ("Error sending email: " +:+ e))
       (since w (send_email s p r subj body w).2)
  ∧ (∀ from_addr to_addrs msg,
       ¬ In (Smtp (sendmail from_addr to_addrs msg))
            (since w (send_email s p r subj body w).2))
  ∧ ¬ In (Smtp quit) (since w (send_email s p r subj body w).2).
Proof.
  intros H1 H2 H3 Htext. unfold send_email. run. unfold msg_as_string.
  cbn [relay as_string emit].
  rewrite H1. cbn [relay as_string emit]. rewrite H2. cbn [relay as_string emit].
  rewrite H3. cbn [relay as_string emit]. rewrite Htext. cbn [fst snd].
  split; [done|]. to_extend w. rewrite since_extend. simpl.
  split_and!; [auto 10|auto 10|intros *|]; intuition discriminate.
Qed.

(** X22. After [update_config] has stored a form whose url and keyword list
    are not empty, a check whose form carries neither field works with
    exactly the url and the keywords that were stored. *)
Theorem saved_form_is_what_a_check_uses
    (host : string) (saving checking : request) (w : world) :
  bad_referer host saving = false →
  Py.strip (default "" (form saving !! "url")) ≠ "" →
  stripped_keywords (default "" (form saving !! "keywords")) ≠ [] →
  method checking = "POST" →
  form checking !! "url" = None →
  form checking !! "keywords" = None →
  effective checking (update_config host saving w).2
  = Returned
      (Py.strip (default "" (form saving !! "url")),
       stripped_keywords (default "" (form saving !! "keywords"))).
Proof.
  intros Href Hurl Hkeywords Hpost Hno_url Hno_keywords.
  rewrite effective_run, update_config_run, Href.
  unfold opened at 1 2. cbn [snd fst config_json set_config_json environ].
  unfold merged, url_and_keywords. cbn [at_url at_keywords default from_option id].
  rewrite bool_decide_eq_true_2 by done. rewrite Hno_url, Hno_keywords.
  destruct (Py.strip _) as [|c u] eqn:Eu; [done|].
  destruct (stripped_keywords _) as [|k ks] eqn:Ek; [done|].
  cbn [or_else Py.truthy truthy_list negb andb fst getitem mbind M_bind mret M_ret
         default from_option id].
  unfold mbind, M_bind, mret, M_ret. cbn [fst].
  rewrite <- Eu, <- Ek, strip_idem.
  by rewrite (stripped_keywords_of_clean _ (stripped_keywords_clean _)).
Qed.

Lemma truthy_strip s : Py.truthy (Py.strip s) = true → Py.truthy s = true.
Proof. by destruct s. Qed.

(** X23. When a check without overrides gets as far as fetching the page,
    [status] reports the url, the keywords and the email as configured. *)
Theorem a_fetching_check_has_status_all_set
    (request : request) (w : world) (url : string) :
  method request = "POST" →
  form request !! "url" = None →
  form request !! "keywords" = None →
  In (Call (of_scrape_webpage url)) (since w (_perform_check request w).2) →
  ∃ answer,
    (status w).1 = Returned answer
    ∧ url_configured answer = true
    ∧ keywords_configured answer = true
    ∧ email_configured answer = true.
Proof.
  intros Hpost Hno_url Hno_keywords. rewrite In_calls.
  destruct (perform_check_cases request w) as (res & evs & E & H).
  rewrite (calls_since_check _ _ _ _ E). intros Hin.
  apply in_app_or in Hin as [Hin|Hin].
  { apply prologue_only in Hin. by destruct Hin as [|[|]]. }
  rewrite status_run. cbn [fst]. rewrite opened_emit.
  rewrite effective_run in H. unfold url_and_keywords in H.
  rewrite bool_decide_eq_true_2, Hno_url, Hno_keywords in H by done.
  set (config := merged (environ w) (opened w).1) in *.
  assert (at_url config = Some (default "" (at_url config))) as Hu by done.
  rewrite Hu in H.
  destruct (at_keywords config) as [ks|]; run; cbn [fst] in H.
  2: { destruct H as [_ H]. by rewrite H in Hin. }
  cbn [default from_option id] in H.
  destruct (Py.truthy (Py.strip _)) eqn:Hurl; cbn [negb] in H.
  2: { destruct H as [_ H]. by rewrite H in Hin. }
  destruct (truthy_list (stripped_keywords _)) eqn:Hks; cbn [negb] in H.
  2: { destruct H as [_ H]. by rewrite H in Hin. }
  destruct (Py.truthy _ && Py.truthy _ && Py.truthy _) eqn:Hsec; cbn [negb] in H.
  2: { destruct H as [_ H]. by rewrite H in Hin. }
  eexists. split; [reflexivity|]. cbn. split_and!.
  - by apply truthy_strip.
  - by destruct ks.
  - done.
Qed.

(** X24. With a token configured, a non-empty [X-Check-Token] header that
    differs from it is refused whatever the query string holds; without the
    header, or with an empty one, the [token] query parameter is the one
    compared, and the right one runs the check. *)
Theorem check_prefers_the_header_token
    (request : request) (w : world) (token : string) :
  environ w !! "CHECK_TOKEN" = Some token → token ≠ "" →
  (∀ h, headers request !! "X-Check-Token" = Some h → h ≠ "" → h ≠ token →
        check request w
        = (Returned
             (CheckResult "error" "Unauthorized - invalid or missing token" None,
              401%N),
           extend [Log WARNING "Unauthorized check attempt"] w))
  ∧ (truthy_opt (headers request !! "X-Check-Token") = false →
     args request !! "token" = Some token →
     ∃ result, (check request w).1 = Returned (result, 200%N)).
Proof.
  intros Htoken Hne. rewrite check_run, Htoken. unfold provided_token, or_opt.
  destruct token as [|c t]; [done|]. cbn [truthy_opt Py.truthy negb].
  split.
  - intros h -> Hh Hdiff. destruct h as [|d h]; [done|].
    cbn [truthy_opt Py.truthy negb orb].
    rewrite bool_decide_eq_false_2; [done|]. congruence.
  - intros -> ->. cbn [truthy_opt Py.truthy negb orb].
    rewrite bool_decide_eq_true_2 by done. cbn [negb].
    destruct (perform_check_paths request (extend [Log INFO "API check triggered"] w))
      as (res & w' & -> & _).
    by exists res.
Qed.

(** ** The further properties on the demonstration deployment *)

Lemma check_keywords_more_text_demo :
  sublist (check_keywords "Sale" ["sale"; "event"])
          (check_keywords "Big SALE today" ["sale"; "event"]).
Proof.
  apply (check_keywords_more_text "Sale" "Big SALE today" ["sale"; "event"]).
  by exists "big ", " today".
Defined.

Lemma load_config_precedence_demo :
  ∃ loaded,
    (load_config demo_world).1 = Returned loaded
    ∧ (∀ u, at_url demo_config = Some u → u ≠ "" → at_url loaded = Some u)
    ∧ (at_url demo_config = None ∨ at_url demo_config = Some "" →
       at_url loaded = Some (default "" (environ demo_world !! "DEFAULT_URL")))
    ∧ (∀ ks, at_keywords demo_config = Some ks → ks ≠ [] →
             at_keywords loaded = Some ks)
    ∧ (at_keywords demo_config = None ∨ at_keywords demo_config = Some [] →
       ∀ d, environ demo_world !! "DEFAULT_KEYWORDS" = Some d → d ≠ "" →
            at_keywords loaded = Some (stripped_keywords d)).
Proof. apply (load_config_precedence demo_world demo_config). reflexivity. Defined.

Lemma send_email_stops_at_the_first_failure_demo :
  (send_email "agent@example.org" "app-password" "me@example.org" "Alert" "Text"
     world_with_bad_password).1
  = Returned false
  ∧ ∀ from_addr to_addrs msg,
      ¬ In (Smtp (sendmail from_addr to_addrs msg))
           (since world_with_bad_password
              (send_email "agent@example.org" "app-password" "me@example.org"
                 "Alert" "Text" world_with_bad_password).2).
Proof.
  apply (send_email_stops_at_the_first_failure
           "agent@example.org" "app-password" "me@example.org" "Alert" "Text"
           world_with_bad_password "Username and Password not accepted").
  right. right. reflexivity.
Defined.

Lemma send_email_false_after_delivery_demo :
  (send_email "agent@example.org" "app-password" "me@example.org" "Alert" "Text"
     world_losing_quit).1
  = Returned false
  ∧ In (Smtp (sendmail "agent@example.org" "me@example.org"
                ("From: agent@example.org" +:+ nl +:+ "To: me@example.org" +:+ nl
                 +:+ "Subject: Alert" +:+ nl +:+ nl +:+ "Text")))
       (since world_losing_quit
          (send_email "agent@example.org" "app-password" "me@example.org"
             "Alert" "Text" world_losing_quit).2)
  ∧ In (Log ERROR ("Error sending email: " +:+ "Connection unexpectedly closed"))
       (since world_losing_quit
          (send_email "agent@example.org" "app-password" "me@example.org"
             "Alert" "Text" world_losing_quit).2).
Proof.
  apply (send_email_false_after_delivery
           "agent@example.org" "app-password" "me@example.org" "Alert" "Text"
           world_losing_quit
           ("From: agent@example.org" +:+ nl +:+ "To: me@example.org" +:+ nl
            +:+ "Subject: Alert" +:+ nl +:+ nl +:+ "Text")
           "Connection unexpectedly closed"); reflexivity.
Defined.

Lemma send_email_gives_up_on_a_bad_message_demo :
  (send_email "agent@example.org" "app-password" "me@example.org"
     ("Alert" +:+ nl +:+ "Bcc: x@y") "Text" world_refusing_the_message).1
  = Returned false
  ∧ In (Smtp (login "agent@example.org" "app-password"))
       (since world_refusing_the_message
          (send_email "agent@example.org" "app-password" "me@example.org"
             ("Alert" +:+ nl +:+ "Bcc: x@y") "Text" world_refusing_the_message).2)
  ∧ In (Log ERROR ("Error sending email: "
                   +:+ "header value appears to contain an embedded header"))
       (since world_refusing_the_message
          (send_email "agent@example.org" "app-password" "me@example.org"
             ("Alert" +:+ nl +:+ "Bcc: x@y") "Text" world_refusing_the_message).2)
  ∧ (∀ from_addr to_addrs msg,
       ¬ In (Smtp (sendmail from_addr to_addrs msg))
            (since world_refusing_the_message
               (send_email "agent@example.org" "app-password" "me@example.org"
                  ("Alert" +:+ nl +:+ "Bcc: x@y") "Text"
                  world_refusing_the_message).2))
  ∧ ¬ In (Smtp quit)
         (since world_refusing_the_message
            (send_email "agent@example.org" "app-password" "me@example.org"
               ("Alert" +:+ nl +:+ "Bcc: x@y") "Text"
               world_refusing_the_message).2).
Proof.
  apply (send_email_gives_up_on_a_bad_message
           "agent@example.org" "app-password" "me@example.org"
           ("Alert" +:+ nl +:+ "Bcc: x@y") "Text" world_refusing_the_message
           "header value appears to contain an embedded header"); reflexivity.
Defined.

Lemma incomplete_configuration_stops_the_check_demo :
  (_perform_check (post ∅ ∅ ∅) world_without_url).1
  = Returned (CheckResult "error" "No URL configured" None)
  ∧ calls (since world_without_url (_perform_check (post ∅ ∅ ∅) world_without_url).2)
    = prologue world_without_url.
Proof.
  apply (incomplete_configuration_stops_the_check
           (post ∅ ∅ ∅) world_without_url "" ["sale"; "event"]); reflexivity.
Defined.

Lemma no_match_sends_nothing_demo :
  (_perform_check (post ∅ ∅ ∅) quiet_page_world).1
  = Returned (CheckResult "info" "No keywords found on the webpage" (Some []))
  ∧ ∀ s p r subj body,
      ¬ In (Call (of_send_email s p r subj body))
           (since quiet_page_world (_perform_check (post ∅ ∅ ∅) quiet_page_world).2).
Proof.
  apply (no_match_sends_nothing (post ∅ ∅ ∅) quiet_page_world
           "Nothing to see" ["sale"; "event"]).
  - vm_compute. auto 10.
  - reflexivity.
Defined.

Lemma missing_keywords_key_is_a_key_error_demo :
  (_perform_check (post {["keywords" := "sale"]} ∅ ∅) world_without_keywords_key).1
  = Returned (CheckResult "error" "Error during check: 'keywords'" None)
  ∧ (status world_without_keywords_key).1 = Raised "'keywords'".
Proof.
  apply (missing_keywords_key_is_a_key_error
           (post {["keywords" := "sale"]} ∅ ∅) world_without_keywords_key
           (Dict (Some "https://example.com") None None None None)); reflexivity.
Defined.

Lemma check_ui_without_a_referer :
  check_ui "localhost:5000" (post ∅ ∅ ∅) demo_world
  = (Returned (CheckResult "error" "Invalid request" None, 400%N),
     extend [Log WARNING "Invalid referer for UI check"] demo_world).
Proof.
  apply (check_ui_is_guarded_by_the_referer "localhost:5000" (post ∅ ∅ ∅) demo_world).
  reflexivity.
Defined.

Lemma update_config_stores_the_form_demo :
  (update_config "localhost:5000" demo_form demo_world).1
  = Returned (Redirect ("Configuration updated successfully!", "success") "index")
  ∧ config_json (update_config "localhost:5000" demo_form demo_world).2
    = Some (Dict (Some "https://example.org/fair") (Some ["fair"; "market"])
                 None None None)
  ∧ environ (update_config "localhost:5000" demo_form demo_world).2
    = environ demo_world.
Proof.
  split; [reflexivity|].
  apply (update_config_stores_the_form "localhost:5000" demo_form demo_world).
  reflexivity.
Defined.

Lemma saved_form_is_what_a_check_uses_demo :
  effective (post ∅ ∅ ∅) (update_config "localhost:5000" demo_form demo_world).2
  = Returned ("https://example.org/fair", ["fair"; "market"]).
Proof.
  apply (saved_form_is_what_a_check_uses
           "localhost:5000" demo_form (post ∅ ∅ ∅) demo_world);
    first [reflexivity | discriminate].
Defined.

Lemma a_fetching_check_has_status_all_set_demo :
  ∃ answer,
    (status demo_world).1 = Returned answer
    ∧ url_configured answer = true
    ∧ keywords_configured answer = true
    ∧ email_configured answer = true.
Proof.
  apply (a_fetching_check_has_status_all_set
           (post ∅ ∅ ∅) demo_world "https://example.com"); try reflexivity.
  vm_compute. auto 10.
Defined.

Lemma check_prefers_the_header_token_demo :
  check (post ∅ {["X-Check-Token" := "guess"]} {["token" := "s3cret"]}) demo_world
  = (Returned
       (CheckResult "error" "Unauthorized - invalid or missing token" None, 401%N),
     extend [Log WARNING "Unauthorized check attempt"] demo_world).
Proof.
  apply (proj1 (check_prefers_the_header_token
                  (post ∅ {["X-Check-Token" := "guess"]} {["token" := "s3cret"]})
                  demo_world "s3cret" eq_refl ltac:(discriminate)) "guess");
    first [reflexivity | discriminate].
Defined.
